(** * A verified model of the Neo4j console chatbot (neo4jChatbot.py)

    The program is glue around external services: a graph question-answering
    chain, a language model, an agent executor and the operating system's
    entropy source.  Those are not part of the program, so they appear below
    as oracles (the variables of Section [Chatbot]); everything the program
    itself does (the six capability functions, the tool table, the prompt
    templates, [generate_response], [chat_loop], [get_session_id]) is
    embedded as executable definitions over an explicit world state.

    The model describes the functions and tables as the module defines
    them.  Module initialisation itself (lines 33-52: reading the
    environment, connecting to Neo4j, building the model client, where
    line 51 refers to a name, [openai_api_base], that the module never
    binds) is outside of it. *)

From Stdlib Require Import String Ascii List NArith Bool Arith Lia DecimalString.
Import ListNotations.
Open Scope list_scope.
Open Scope string_scope.

(** ** Python text

    A Python [str] whose code points are all below 256 is a Rocq [string]
    (one [ascii] per code point).  The console lines, prompts and messages of
    the program are modelled at that type. *)

Module PyStr.

(** The double quote and the line feed, built from their codes. *)
Definition dq : string := String (ascii_of_nat 34) EmptyString.
Definition nl : string := String (ascii_of_nat 10) EmptyString.

(** [str.lower()] on one code point below 256: the ASCII capitals A-Z and the
    Latin-1 capitals U+00C0-U+00DE (U+00D7, the multiplication sign, apart)
    move up by 32; every other code point is its own lower case. *)
Definition lower_char (c : ascii) : ascii :=
  let n := N_of_ascii c in
  if ((65 <=? n) && (n <=? 90))%N
     || ((192 <=? n) && (n <=? 222) && negb (n =? 215))%N
  then ascii_of_N (n + 32)
  else c.

(** [s.lower()] *)
Fixpoint lower (s : string) : string :=
  match s with
  | EmptyString => EmptyString
  | String c rest => String (lower_char c) (lower rest)
  end.

(** [x in xs] for a list of strings: comparison by [==]. *)
Definition in_list (x : string) (xs : list string) : bool :=
  existsb (String.eqb x) xs.

(** [needle in hay] for two strings: the substring test. *)
Fixpoint contains (needle hay : string) : bool :=
  String.prefix needle hay
  || match hay with
     | EmptyString => false
     | String _ rest => contains needle rest
     end.

(** [str(n)] for a non-negative integer: its decimal numeral. *)
Definition str_of_N (n : N) : string := NilZero.string_of_uint (N.to_uint n).

(** Two letters are the same up to ASCII case. *)
Definition same_letter (a b : ascii) : bool :=
  Ascii.eqb (lower_char a) (lower_char b).

(** [s] is [t] in some letter casing: same length, same letters up to case. *)
Fixpoint casing_of (t s : string) : bool :=
  match t, s with
  | EmptyString, EmptyString => true
  | String a t', String b s' => same_letter a b && casing_of t' s'
  | _, _ => false
  end.

(** The capital of an ASCII small letter. *)
Definition upper_char (c : ascii) : ascii :=
  let n := N_of_ascii c in
  if ((97 <=? n) && (n <=? 122))%N then ascii_of_N (n - 32) else c.

(** Every way to write a lower-case ASCII word in small and capital
    letters. *)
Fixpoint casings (word : string) : list string :=
  match word with
  | EmptyString => [EmptyString]
  | String c rest =>
      (map (String c) (casings rest)
       ++ map (String (upper_char c)) (casings rest))%list
  end.

End PyStr.
Import PyStr.

(** ** Exceptions and outcomes

    An exception is an instance of a subclass of Python's [Exception]: what
    [except Exception as e] catches.  [exn_str] is [str(e)]. *)

Record exn : Type := mkExn { exn_class : string; exn_str : string }.

(** [d[key]] on a missing key: [str(KeyError(key))] is the [repr] of the key. *)
Definition KeyError (key : string) : exn :=
  mkExn "KeyError" ("'" ++ key ++ "'").
Definition ValueError (msg : string) : exn := mkExn "ValueError" msg.
(** What [input()] raises at the end of standard input. *)
Definition EOFError : exn := mkExn "EOFError" "EOF when reading a line".

Inductive outcome (A : Type) : Type :=
| Ok (a : A)
| Raise (e : exn).
Arguments Ok {A} a.
Arguments Raise {A} e.

(** A Python [dict] with text keys and text values, in insertion order.
    The dicts of the program are the inputs and results of the chain and of
    the agent executor; the one entry the program reads, ['output'], is the
    text of the agent's final answer. *)
Definition dict : Type := list (string * string).

Fixpoint dict_get (d : dict) (key : string) : option string :=
  match d with
  | [] => None
  | (k, v) :: rest => if String.eqb k key then Some v else dict_get rest key
  end.

(** ** Template rendering

    [str.format] as [PromptTemplate] and f-strings use it: a doubled brace
    is a literal brace, [{name}] is replaced by the value of [name].  The
    second argument is [Some acc] while a field name is being read. *)
Fixpoint format_from (env : dict) (field : option string) (s : string)
  : outcome string :=
  match field with
  | None =>
      match s with
      | EmptyString => Ok EmptyString
      | String "{" (String "{" rest) =>
          match format_from env None rest with
          | Ok r => Ok (String "{" r)
          | Raise e => Raise e
          end
      | String "{" rest => format_from env (Some EmptyString) rest
      | String "}" (String "}" rest) =>
          match format_from env None rest with
          | Ok r => Ok (String "}" r)
          | Raise e => Raise e
          end
      | String "}" _ =>
          Raise (ValueError "Single '}' encountered in format string")
      | String c rest =>
          match format_from env None rest with
          | Ok r => Ok (String c r)
          | Raise e => Raise e
          end
      end
  | Some name =>
      match s with
      | EmptyString => Raise (ValueError "expected '}' before end of string")
      | String "}" rest =>
          match dict_get env name with
          | Some v =>
              match format_from env None rest with
              | Ok r => Ok (v ++ r)
              | Raise e => Raise e
              end
          | None => Raise (KeyError name)
          end
      | String c rest => format_from env (Some (name ++ String c EmptyString)) rest
      end
  end.

Definition format (template : string) (env : dict) : outcome string :=
  format_from env None template.

(** ** The prompt templates

    The two literals of the program, character for character; a double quote
    of the source is spliced in as [dq]. *)

(** [CYPHER_GENERATION_TEMPLATE] (lines 55-85), cut in two at its one field
    [{question}]. *)
Definition cypher_template_head : string :=
"
You are an expert Neo4j Developer translating user questions into Cypher to answer questions about products and provide recommendations.
Convert the user's question based on the schema provided.

Instructions:
- Use only the provided Nodes and Relationships in the schema.
- Use only the provided relationship types and properties in the schema.
- Cypher Query should start with " ++ dq ++
"USE neo4j" ++ dq ++
" every time.
- toLower function should be used for all attributes in the schema.
- and convert every attribute to string before using it in the query.
- always use `WHERE` clauses with `CONTAINS` for partial string matching (Don't use attributes names after `CONTAINS`)
- check the user input has a word in the schema such as Nodes,Relationships and Properties.

Schema:
Nodes:
- CompanyNode Labels and Properties:
  ['Customer']: ['CustomerCode', 'CustomerName']
  ['Supplier']: ['BuyerCode', 'Supplier','SupplierName']
  ['Product']: ['ItemCost', 'ItemType', 'PartDescription', 'PartNo', 'PriceWithoutTax']
 
Relationship Types and Properties:
- (Customer)-[:PLACES]->(SalesOrder)
- (SalesOrder)-[:INCLUDES_PRODUCT{{ OrderQty, ShippedQty, BOQty}}]->(Product)
- (SalesOrder)-[:DISPATCHED_BY]->(Warehouse)
- (Warehouse)-[:DELIVERS_TO]->(Customer)
- (Company)-[:OWNS]->(Warehouse)
- (Company)-[:ISSUES]->(PurchaseOrder)

Question: ".

Definition cypher_template_tail : string :=
"

".

Definition CYPHER_GENERATION_TEMPLATE : string :=
  cypher_template_head ++ "{question}" ++ cypher_template_tail.

(** The f-string literal handed to [PromptTemplate.from_template] (lines
    185-227), cut in two at its first date field
    [{current_month_name} {current_year}]. *)
Definition agent_prompt_head : string :=
"
You are an expert in answering product-related questions by accessing a Neo4j database and generating Cypher queries.
When the user asks about products, sales, orders, warehouses, suppliers, or customers, use the corresponding tool.
If the question is general or does not require database access, use 'General Chat'.
limit output to maximum 5 responses.
Limit responses to the **final answer only**. Do not include additional action metadata in the response.                                            

Date Interpretation Guidelines:
1. When the input contains " ++ dq ++
"this month," ++ dq ++
" interpret it as " ++ dq ++
"".

Definition agent_prompt_tail : string :=
"" ++ dq ++
".
2. For " ++ dq ++
"this week" ++ dq ++
" or " ++ dq ++
"today," ++ dq ++
" use the specific date range based on the current date.
3. If a specific month is mentioned without a year, interpret it as " ++ dq ++
"{current_year}" ++ dq ++
" unless the year is specified otherwise.
4. If the input is unclear about the date, ask the user to clarify, specifying both month and year.

TOOLS:
------
You have access to the following tools:
{{tools}}

To use a tool, follow this format:
Thought: Do I need to use a tool? Yes
Action: the action to take, should be one of [{{tool_names}}]
Action Input: the input to the action
Observation: the result of the action

When you have a response to say to the Human, or if you do not need to use a tool, respond in this format:
Thought: Do I need to use a tool? No

Logic for Final Answer:
- If the user input matches with specific schema terms, identify relevant nodes, properties, and relationships and construct the Cypher query accordingly.
- If input is a simple greeting like " ++ dq ++
"Hello" ++ dq ++
" or " ++ dq ++
"Hi" ++ dq ++
", respond with the generated Final Answer: your response here.
- For simple numbers, prompt for specifics related to products, sales, warehouses, orders, or suppliers.
- For sensitive inquiries, respond with:
  Final Answer: Please contact ABC Customer Service for assistance with products, sales, warehouses, orders, or suppliers.
- For date-related questions with terms like " ++ dq ++
"this month" ++ dq ++
" or " ++ dq ++
"{current_month_name}" ++ dq ++
", automatically substitute with the appropriate month and year.
- If none of the above conditions are met, respond with:
  Final Answer: Could you please provide more details related to products, sales, warehouses, orders, or suppliers at ABC?

Previous conversation history:
{{chat_history}}

New input: {{input}}
{{agent_scratchpad}}
".

Definition AGENT_PROMPT_FSTRING : string :=
  agent_prompt_head ++ "{current_month_name} {current_year}" ++ agent_prompt_tail.

(** The text of a template piece that has no field left to fill: its
    doubled braces read as single ones. *)
Definition literal_text (env : dict) (piece : string) : string :=
  match format piece env with
  | Ok r => r
  | Raise _ => EmptyString
  end.

(** The fixed text around the question in a rendered Cypher prompt. *)
Definition cypher_prompt_before : string := literal_text [] cypher_template_head.
Definition cypher_prompt_after : string := literal_text [] cypher_template_tail.

(** ** Session identifiers: [uuid.uuid4()] and [str]

    [uuid.uuid4()] is [UUID(bytes=os.urandom(16), version=4)]: the sixteen
    random bytes are read as a big-endian integer, the two variant bits and
    the four version bits are overwritten, and [str] prints the 128-bit
    value as 32 lower-case hexadecimal digits in groups 8-4-4-4-12. *)

Module Uuid.
Open Scope N_scope.

(** The digit of ['%x'] for a value below 16. *)
Definition hex_digit (d : N) : ascii :=
  match d with
  | 0 => "0" | 1 => "1" | 2 => "2" | 3 => "3" | 4 => "4" | 5 => "5"
  | 6 => "6" | 7 => "7" | 8 => "8" | 9 => "9" | 10 => "a" | 11 => "b"
  | 12 => "c" | 13 => "d" | 14 => "e" | _ => "f"
  end%char.

(** The value of a hexadecimal digit (0 for any other character). *)
Definition hex_value (c : ascii) : N :=
  match N_of_ascii c with
  | 48 => 0 | 49 => 1 | 50 => 2 | 51 => 3 | 52 => 4 | 53 => 5 | 54 => 6
  | 55 => 7 | 56 => 8 | 57 => 9 | 97 => 10 | 98 => 11 | 99 => 12
  | 100 => 13 | 101 => 14 | 102 => 15 | _ => 0
  end.

(** ['%0<width>x' % n] for [n < 16 ^ width]: most significant digit first. *)
Fixpoint hex_fixed (width : nat) (n : N) : list ascii :=
  match width with
  | O => []
  | S k => (hex_fixed k (n / 16) ++ [hex_digit (n mod 16)])%list
  end.

(** Reading a digit string back. *)
Definition unhex (l : list ascii) : N :=
  fold_left (fun acc c => acc * 16 + hex_value c) l 0.

Definition dash : ascii := "-"%char.

(** [UUID.__str__]: [hex = '%032x' % self.int], then
    [hex[:8]-hex[8:12]-hex[12:16]-hex[16:20]-hex[20:]]. *)
Definition uuid_str (i : N) : string :=
  let hex := hex_fixed 32 i in
  string_of_list_ascii
    (firstn 8 hex ++ dash :: firstn 4 (skipn 8 hex) ++ dash ::
     firstn 4 (skipn 12 hex) ++ dash :: firstn 4 (skipn 16 hex) ++ dash ::
     skipn 20 hex)%list.

(** The bits [UUID.__init__] overwrites for [version=4]. *)
Definition variant_mask : N := N.shiftl 0xc000 48.
Definition variant_bits : N := N.shiftl 0x8000 48.
Definition version_mask : N := N.shiftl 0xf000 64.
Definition version_bits : N := N.shiftl 4 76.

(** The integer of the UUID built from a 16-byte draw [r] (read as a
    big-endian integer; only its low 128 bits exist). *)
Definition uuid4_int (r : N) : N :=
  let i := r mod 2 ^ 128 in
  let i := N.ldiff i variant_mask in
  let i := N.lor i variant_bits in
  let i := N.ldiff i version_mask in
  N.lor i version_bits.

(** [str(uuid.uuid4())] as a function of the draw. *)
Definition uuid4_str (r : N) : string := uuid_str (uuid4_int r).

(** The 122 bits of a draw that survive in the identifier. *)
Definition random_bits (r : N) : N :=
  N.ldiff (r mod 2 ^ 128) (N.lor variant_mask version_mask).

(** Reading an identifier back: drop the four dashes at their places and
    read the 32 digits. *)
Definition ungroup (l : list ascii) : list ascii :=
  (firstn 8 l ++ firstn 4 (skipn 9 l) ++ firstn 4 (skipn 14 l)
   ++ firstn 4 (skipn 19 l) ++ skipn 24 l)%list.

Definition parse_uuid (s : string) : N :=
  unhex (ungroup (list_ascii_of_string s)).

Close Scope N_scope.
End Uuid.

(** ** The world and the effect monad

    Everything the program can observe or change outside its own variables:
    what was written to standard output, the records of
    [chatbot_errors.log], how many draws were taken from [os.urandom], the
    prompts the graph question-answering chain received, the inputs of raw
    [llm.invoke] calls, and the session identifiers the agent pipeline was
    run with. *)

Record world : Type := mkWorld {
  stdout : list string;
  errlog : list string;
  entropy_used : nat;
  chain_prompts : list string;
  llm_inputs : list string;
  sessions : list string
}.

Definition empty_world : world := mkWorld [] [] 0 [] [] [].

(** The elementary changes of a world. *)
Definition wrote (s : string) (w : world) : world :=
  mkWorld (stdout w ++ [s])%list (errlog w) (entropy_used w)
          (chain_prompts w) (llm_inputs w) (sessions w).

Definition logged (record : string) (w : world) : world :=
  mkWorld (stdout w) (errlog w ++ [record])%list (entropy_used w)
          (chain_prompts w) (llm_inputs w) (sessions w).

Definition with_draw (w : world) : world :=
  mkWorld (stdout w) (errlog w) (S (entropy_used w))
          (chain_prompts w) (llm_inputs w) (sessions w).

Definition with_chain_prompt (prompt : string) (w : world) : world :=
  mkWorld (stdout w) (errlog w) (entropy_used w)
          (chain_prompts w ++ [prompt])%list (llm_inputs w) (sessions w).

Definition with_llm_input (text : string) (w : world) : world :=
  mkWorld (stdout w) (errlog w) (entropy_used w) (chain_prompts w)
          (llm_inputs w ++ [text])%list (sessions w).

Definition with_session (sid : string) (w : world) : world :=
  mkWorld (stdout w) (errlog w) (entropy_used w) (chain_prompts w)
          (llm_inputs w) (sessions w ++ [sid])%list.

(** A computation runs in a world and either returns or raises; the changes
    made before a [raise] stay. *)
Definition M (A : Type) : Type := world -> outcome A * world.

Definition ret {A : Type} (a : A) : M A := fun w => (Ok a, w).

Definition raise {A : Type} (e : exn) : M A := fun w => (Raise e, w).

Definition bind {A B : Type} (c : M A) (k : A -> M B) : M B :=
  fun w =>
    match c w with
    | (Ok a, w') => k a w'
    | (Raise e, w') => (Raise e, w')
    end.

(** [try: body  except Exception as e: handler e] *)
Definition try_except {A : Type} (body : M A) (handler : exn -> M A) : M A :=
  fun w =>
    match body w with
    | (Ok a, w') => (Ok a, w')
    | (Raise e, w') => handler e w'
    end.

Declare Scope py_scope.
Delimit Scope py_scope with py.
Notation "x <- c ;; k" := (bind c (fun x => k))
  (at level 61, c at next level, right associativity) : py_scope.
Notation "c ;; k" := (bind c (fun _ => k))
  (at level 61, right associativity) : py_scope.
Open Scope py_scope.

(** [sys.stdout.write(s)] *)
Definition write (s : string) : M unit :=
  fun w => (Ok tt, wrote s w).

(** [print(s)]: the text and a line feed. *)
Definition print (s : string) : M unit := write (s ++ nl).

(** [input(prompt)] when standard input delivers [line] (its line feed
    stripped), or is at its end. *)
Definition input (prompt : string) (line : option string) : M string :=
  write prompt ;;
  match line with
  | Some l => ret l
  | None => raise EOFError
  end.

(** [logging.error(msg)] under
    [logging.basicConfig(filename='chatbot_errors.log', level=logging.ERROR)]:
    one record in the default format [%(levelname)s:%(name)s:%(message)s]. *)
Definition logging_error (msg : string) : M unit :=
  fun w => (Ok tt, logged ("ERROR:root:" ++ msg) w).

(** [log_error] (lines 29-30). *)
Definition log_error (error_message : string) : M unit :=
  logging_error error_message.

(** [d[key]]: the value, or [KeyError]. *)
Definition subscript (d : dict) (key : string) : M string :=
  match dict_get d key with
  | Some v => ret v
  | None => raise (KeyError key)
  end.

(** The truth value of a [str] in a condition: it is not empty. *)
Definition truthy (s : string) : bool := negb (String.eqb s EmptyString).

(** ** Values that cross the tool boundary

    A capability returns what the chain returned (a [dict]) or a fallback
    sentence (a [str]); [llm.invoke] returns a message. *)
Inductive pyval : Type :=
| PStr (s : string)
| PDict (d : dict)
| PMessage (content : string).

(** One run of the agent executor, as the language model drives it: it
    finishes (with the result [dict], or by raising), or asks for a tool by
    name with an input and goes on from the observation. *)
Inductive plan : Type :=
| Finish (result : outcome dict)
| Action (tool_name : string) (tool_input : string) (next : pyval -> plan).

(** [Neo4jChatMessageHistory(session_id=..., graph=graph)]: a handle on the
    external history store, keyed by the session identifier. *)
Record history_handle : Type := Neo4jChatMessageHistory { session_id : string }.

(** The six database capabilities and the fallback sentence each returns. *)
Inductive capability : Type :=
| ProductInformation | OrderTracking | SupplierInformation
| WarehouseInventory | PurchaseOrderInformation | CustomerInformation.

Definition all_capabilities : list capability :=
  [ProductInformation; OrderTracking; SupplierInformation;
   WarehouseInventory; PurchaseOrderInformation; CustomerInformation].

Definition registered_fallback (c : capability) : string :=
  match c with
  | ProductInformation =>
      "There was an issue processing your request. Please try again or contact support."
  | OrderTracking =>
      "Unable to track the order at the moment. Please try again later or contact support."
  | SupplierInformation =>
      "Unable to fetch supplier information. Please try again later or contact support."
  | WarehouseInventory =>
      "Unable to fetch warehouse inventory at the moment. Please try again later or contact support."
  | PurchaseOrderInformation =>
      "Unable to retrieve purchase order information. Please try again later or contact support."
  | CustomerInformation =>
      "Unable to retrieve customer information. Please try again later or contact support."
  end.

(** The two sentences of [generate_response]. *)
Definition not_found_answer : string :=
  "I couldn't find the exact information in the database. Please try again or contact support.".
Definition generic_error_answer : string :=
  "There was an issue processing your request. Please try again later or contact support.".

Section Chatbot.

(** *** The external services *)

(** The k-th [os.urandom(16)] of the run, read as a big-endian integer. *)
Variable os_urandom16 : nat -> N.
(** What lies behind the Cypher prompt of [GraphCypherQAChain] (query
    generation by the model, execution on Neo4j, answer synthesis): the
    outcome of its n-th call on a rendered prompt. *)
Variable graph_qa : nat -> string -> outcome dict.
(** The content of the message the n-th raw [llm.invoke] returns. *)
Variable llm_reply : nat -> string -> outcome string.
(** The run the agent makes on its n-th invocation, bound to a history
    handle, for an input. *)
Variable agent : nat -> history_handle -> string -> plan.
(** [repr] of a [dict], as [print(response)] shows it. *)
Variable repr_dict : dict -> string.
(** [datetime.now().year] and [datetime.now().strftime("%B")] at import. *)
Variable current_year : N.
Variable current_month_name : string.

(** *** Session identifiers (lines 18-26) *)

Definition uuid_uuid4 : M N :=
  fun w => (Ok (Uuid.uuid4_int (os_urandom16 (entropy_used w))), with_draw w).

Definition get_session_id : M string :=
  u <- uuid_uuid4 ;; ret (Uuid.uuid_str u).

Definition get_memory (sid : string) : history_handle :=
  Neo4jChatMessageHistory sid.

(** *** The chain and the raw model call (lines 45-52, 229-237) *)

(** [cypher_chain.invoke(inputs)]: the question is [inputs["query"]]; the
    Cypher prompt is [CYPHER_GENERATION_TEMPLATE] with [{question}] filled
    in; the rest is the external service. *)
Definition cypher_chain_invoke (inputs : dict) : M dict :=
  match dict_get inputs "query" with
  | None => raise (ValueError "Missing some input keys: {'query'}")
  | Some question =>
      match format CYPHER_GENERATION_TEMPLATE [("question", question)] with
      | Raise e => raise e
      | Ok prompt =>
          fun w =>
            (graph_qa (length (chain_prompts w)) prompt,
             with_chain_prompt prompt w)
      end
  end.

(** [llm.invoke(text)] *)
Definition llm_invoke (text : string) : M pyval :=
  fun w =>
    (match llm_reply (length (llm_inputs w)) text with
     | Ok content => Ok (PMessage content)
     | Raise e => Raise e
     end,
     with_llm_input text w).

(** *** The six capability functions (lines 88-140) *)

Definition cypher_qa (query : string) : M pyval :=
  try_except
    (result <- cypher_chain_invoke [("query", query)] ;;
     ret (PDict result))
    (fun e =>
       log_error ("Cypher error occurred: " ++ exn_str e) ;;
       print (exn_str e) ;;
       ret (PStr "There was an issue processing your request. Please try again or contact support.")).

Definition order_tracking (query : string) : M pyval :=
  try_except
    (result <- cypher_chain_invoke [("query", query)] ;;
     ret (PDict result))
    (fun e =>
       log_error ("Cypher error occurred: " ++ exn_str e) ;;
       print (exn_str e) ;;
       ret (PStr "Unable to track the order at the moment. Please try again later or contact support.")).

Definition supplier_info (query : string) : M pyval :=
  try_except
    (result <- cypher_chain_invoke [("query", query)] ;;
     ret (PDict result))
    (fun e =>
       log_error ("Cypher error occurred: " ++ exn_str e) ;;
       print (exn_str e) ;;
       ret (PStr "Unable to fetch supplier information. Please try again later or contact support.")).

Definition warehouse_inventory (query : string) : M pyval :=
  try_except
    (result <- cypher_chain_invoke [("query", query)] ;;
     ret (PDict result))
    (fun e =>
       log_error ("Cypher error occurred: " ++ exn_str e) ;;
       print (exn_str e) ;;
       ret (PStr "Unable to fetch warehouse inventory at the moment. Please try again later or contact support.")).

Definition purchase_order_info (query : string) : M pyval :=
  try_except
    (result <- cypher_chain_invoke [("query", query)] ;;
     ret (PDict result))
    (fun e =>
       log_error ("Cypher error occurred: " ++ exn_str e) ;;
       print (exn_str e) ;;
       ret (PStr "Unable to retrieve purchase order information. Please try again later or contact support.")).

Definition customer_info (query : string) : M pyval :=
  try_except
    (result <- cypher_chain_invoke [("query", query)] ;;
     ret (PDict result))
    (fun e =>
       log_error ("Cypher error occurred: " ++ exn_str e) ;;
       print (exn_str e) ;;
       ret (PStr "Unable to retrieve customer information. Please try again later or contact support.")).

(** *** The tool table (lines 142-178) *)

Record tool : Type := Tool_from_function {
  name : string;
  description : string;
  func : string -> M pyval
}.

Definition tools : list tool :=
  [ Tool_from_function
      "Product Information"
      "Answer product-related and warehouse-related questions using Cypher in the Neo4j database."
      cypher_qa;
    Tool_from_function
      "Order Tracking"
      "Help track orders based on customer input using Cypher queries in the Neo4j database."
      order_tracking;
    Tool_from_function
      "Supplier Information"
      "Fetch supplier-related information using Cypher queries in the Neo4j database."
      supplier_info;
    Tool_from_function
      "Warehouse Inventory"
      "Fetch the status of warehouse inventory using Cypher queries in the Neo4j database."
      warehouse_inventory;
    Tool_from_function
      "Purchase Order Information"
      "Retrieve information related to purchase orders using Cypher queries in the Neo4j database."
      purchase_order_info;
    Tool_from_function
      "Customer Information"
      "Retrieve customer-related information using Cypher queries in the Neo4j database."
      customer_info;
    Tool_from_function
      "General Chat"
      "For general questions or unstructured queries."
      llm_invoke ].

(** The function behind each database capability. *)
Definition capability_func (c : capability) : string -> M pyval :=
  match c with
  | ProductInformation => cypher_qa
  | OrderTracking => order_tracking
  | SupplierInformation => supplier_info
  | WarehouseInventory => warehouse_inventory
  | PurchaseOrderInformation => purchase_order_info
  | CustomerInformation => customer_info
  end.

(** *** The agent (lines 180-249) *)

(** The text [PromptTemplate.from_template] receives: the f-string with the
    two date variables filled in.  It is written for the language model;
    the program never interprets it. *)
Definition agent_prompt : outcome string :=
  format AGENT_PROMPT_FSTRING
         [("current_month_name", current_month_name);
          ("current_year", str_of_N current_year)].

Fixpoint find_tool (requested : string) (ts : list tool) : option tool :=
  match ts with
  | [] => None
  | t :: rest => if String.eqb (name t) requested then Some t
                  else find_tool requested rest
  end.

(** What the executor observes for a name that is no tool. *)
Definition invalid_tool (requested : string) : pyval :=
  PStr (requested ++ " is not a valid tool, try one of ["
        ++ String.concat ", " (map name tools) ++ "].").

(** [AgentExecutor]: each action runs the named tool on its input, and an
    exception of a tool that does not catch it ends the run. *)
Fixpoint agent_executor (p : plan) : M dict :=
  match p with
  | Finish (Ok result) => ret result
  | Finish (Raise e) => raise e
  | Action requested tool_input next =>
      match find_tool requested tools with
      | Some t => observation <- func t tool_input ;;
                  agent_executor (next observation)
      | None => agent_executor (next (invalid_tool requested))
      end
  end.

(** [chat_agent.invoke(inputs, {"configurable": {"session_id": sid}})]:
    [RunnableWithMessageHistory] binds the run to [get_memory(sid)]. *)
Definition chat_agent_invoke (inputs : dict) (sid : string) : M dict :=
  user_input <- subscript inputs "input" ;;
  fun w =>
    agent_executor
      (agent (length (sessions w)) (get_memory sid) user_input)
      (with_session sid w).

(** *** The response generator (lines 252-275) *)

Definition generate_response (user_input : string) : M string :=
  try_except
    (sid <- get_session_id ;;
     response <- chat_agent_invoke [("input", user_input)] sid ;;
     print (repr_dict response) ;;
     output <- subscript response "output" ;;
     final_answer <-
       (if truthy output
        then subscript response "output"
        else ret "I couldn't find the exact information in the database. Please try again or contact support.") ;;
     ret final_answer)
    (fun e =>
       log_error ("Error generating response: " ++ exn_str e) ;;
       ret "There was an issue processing your request. Please try again later or contact support.").

(** *** The console loop (lines 278-286)

    [lines] is what standard input will deliver, one entry per line; when it
    is used up, [input] raises [EOFError], which nothing catches. *)
Fixpoint chat_turns (lines : list string) : M unit :=
  match lines with
  | [] => _ <- input "You: " None ;; ret tt
  | line :: rest =>
      user_input <- input "You: " (Some line) ;;
      if in_list (lower user_input) ["exit"; "quit"]
      then print "Chatbot: Goodbye!"
      else response <- generate_response user_input ;;
           print ("Chatbot: " ++ response) ;;
           chat_turns rest
  end.

Definition chat_loop (lines : list string) : M unit :=
  print "Hello! I am your product chatbot. How can I assist you today?" ;;
  chat_turns lines.

End Chatbot.


(** ** Reference definitions for the statements below *)

(** The rendered Cypher prompt for a question: the fixed text around it. *)
Definition cypher_prompt (question : string) : string :=
  cypher_prompt_before ++ question ++ cypher_prompt_after.

(** "A pure forwarding call to query execution, differing only in fallback
    error text": one function of the fallback sentence, against which the
    six capability functions are compared. *)
Definition forward_to_chain (graph_qa : nat -> string -> outcome dict)
    (fallback : string) (query : string) : M pyval :=
  try_except
    (result <- cypher_chain_invoke graph_qa [("query", query)] ;;
     ret (PDict result))
    (fun e =>
       log_error ("Cypher error occurred: " ++ exn_str e) ;;
       print (exn_str e) ;;
       ret (PStr fallback)).

(** The number of lines the loop answers before it meets an exit line. *)
Fixpoint turns_before_exit (lines : list string) : nat :=
  match lines with
  | [] => 0
  | line :: rest =>
      if in_list (lower line) ["exit"; "quit"] then 0
      else S (turns_before_exit rest)
  end.

(** Two worlds with the same entropy position and the same sessions: what
    everything below the response generator preserves. *)
Definition same_ids (w w' : world) : Prop :=
  entropy_used w' = entropy_used w /\ sessions w' = sessions w.

(** The session identifier made from the k-th draw. *)
Definition session_of_draw (os_urandom16 : nat -> N) (k : nat) : string :=
  Uuid.uuid4_str (os_urandom16 k).

(** ** Scenarios: concrete external services *)

Module Scenario.

(** An exception of the graph service. *)
Definition boom : exn := mkExn "ServiceUnavailable" "Connection refused (bolt://localhost:7687)".

(** The chain fails on every call. *)
Definition failing_chain (n : nat) (prompt : string) : outcome dict :=
  Raise boom.

(** The chain answers every call. *)
Definition answering_chain (n : nat) (prompt : string) : outcome dict :=
  Ok [("query", prompt); ("result", "3 orders")].

Definition polite_llm (n : nat) (text : string) : outcome string :=
  Ok "Hello! How can I help?".

(** An entropy source that returns the same sixteen bytes every time. *)
Definition stuck_entropy (k : nat) : N := 0%N.

(** An entropy source whose second and later draws differ from the first
    in one of the two variant bits only. *)
Definition variant_entropy (k : nat) : N :=
  match k with
  | O => 0%N
  | S _ => N.shiftl 1 62
  end.

(** An entropy source that counts. *)
Definition counting_entropy (k : nat) : N := N.of_nat k.

(** The agent hands the user's words, unchanged, to Order Tracking and
    answers with what it observes. *)
Definition verbatim_agent (n : nat) (h : history_handle) (user_input : string)
  : plan :=
  Action "Order Tracking" user_input
    (fun observation =>
       Finish (Ok [("input", user_input);
                   ("output", match observation with
                              | PStr s => s
                              | PDict d => match dict_get d "result" with
                                           | Some r => r
                                           | None => EmptyString
                                           end
                              | PMessage c => c
                              end)])).

(** The agent finishes at once with a result that has no ['output']. *)
Definition silent_agent (n : nat) (h : history_handle) (user_input : string)
  : plan :=
  Finish (Ok [("input", user_input)]).

(** The agent finishes at once with an empty answer. *)
Definition empty_agent (n : nat) (h : history_handle) (user_input : string)
  : plan :=
  Finish (Ok [("input", user_input); ("output", EmptyString)]).

(** The agent executor itself fails. *)
Definition crashing_agent (n : nat) (h : history_handle) (user_input : string)
  : plan :=
  Finish (Raise (mkExn "OutputParserException" "Could not parse LLM output")).

Definition plain_repr (d : dict) : string := "<response>".

(** The English month names, and the years a clock can plausibly show. *)
Definition month_names : list string :=
  ["January"; "February"; "March"; "April"; "May"; "June"; "July"; "August";
   "September"; "October"; "November"; "December"].
Definition years : list string :=
  map (fun k => str_of_N (N.of_nat k)) (seq 1970 200).

End Scenario.

(** ** Further reference definitions *)

(** The exit test of the loop, as a predicate on a line. *)
Definition is_exit_line (line : string) : bool :=
  in_list (lower line) ["exit"; "quit"].


(** A run of the agent that finishes with a result holding an ['output']. *)
Fixpoint answers (p : plan) : Prop :=
  match p with
  | Finish (Ok result) => dict_get result "output" <> None
  | Finish (Raise _) => False
  | Action _ _ next => forall observation, answers (next observation)
  end.

(** One list continues another. *)
Definition extends {A : Type} (l l' : list A) : Prop :=
  exists more, l' = (l ++ more)%list.

(** What the loop writes first, before each line it reads, and last. *)
Definition greeting : string :=
  "Hello! I am your product chatbot. How can I assist you today?" ++ nl.
Definition you_prompt : string := "You: ".
Definition goodbye : string := "Chatbot: Goodbye!" ++ nl.

(** A lower-case hexadecimal digit. *)
Definition is_hex (c : ascii) : bool :=
  existsb (Ascii.eqb c) (list_ascii_of_string "0123456789abcdef").

(** The places of the four dashes in an identifier. *)
Definition dash_places : list nat := [8; 13; 18; 23]%nat.

(** Text without braces: what [str.format] copies as it is. *)
Definition is_brace (c : ascii) : bool :=
  Ascii.eqb c "{" || Ascii.eqb c "}".

Fixpoint brace_free (s : string) : bool :=
  match s with
  | EmptyString => true
  | String c rest => negb (is_brace c) && brace_free rest
  end.

(** A result passed through a function, an exception passed on. *)
Definition outcome_map {A B : Type} (f : A -> B) (o : outcome A) : outcome B :=
  match o with
  | Ok a => Ok (f a)
  | Raise e => Raise e
  end.

(** A text cut at the first occurrence of a marker (the marker dropped),
    and at the first occurrences of several markers in turn. *)
Fixpoint split_on (marker s : string) : string * string :=
  if String.prefix marker s
  then (EmptyString, substring (String.length marker) (String.length s) s)
  else match s with
       | EmptyString => (EmptyString, EmptyString)
       | String c rest =>
           let (a, b) := split_on marker rest in (String c a, b)
       end.

Fixpoint split_all (markers : list string) (s : string) : list string :=
  match markers with
  | [] => [s]
  | marker :: others =>
      let (a, b) := split_on marker s in a :: split_all others b
  end.

(** The tail of the agent f-string, cut at its fields and at its doubled
    braces: eight pieces of plain text. *)
Definition agent_tail_pieces : list string :=
  split_all ["{current_year}"; "{{tools}}"; "{{tool_names}}";
             "{current_month_name}"; "{{chat_history}}"; "{{input}}";
             "{{agent_scratchpad}}"]
            agent_prompt_tail.

Definition agent_piece (k : nat) : string := nth k agent_tail_pieces EmptyString.

(** The variables [create_react_agent] and the executor fill in. *)
Definition agent_variables (tools_text tool_names chat_history user_input
                            agent_scratchpad : string) : dict :=
  [("tools", tools_text); ("tool_names", tool_names);
   ("chat_history", chat_history); ("input", user_input);
   ("agent_scratchpad", agent_scratchpad)].



(** ** Further scenarios *)

Module MoreScenario.



End MoreScenario.

(** Equality of two numbers bit by bit, through [lor], [ldiff], [land]. *)
Ltac bitwise m :=
  apply N.bits_inj; intros m;
  repeat rewrite ?N.lor_spec, ?N.ldiff_spec, ?N.land_spec.

(** * Properties *)

(** ** Text *)

Lemma prefix_app (s t : string) : String.prefix s (s ++ t) = true.
Proof.
  induction s as [|c s IH]; simpl.
  - destruct t; reflexivity.
  - destruct (ascii_dec c c) as [_|n]; [exact IH | now elim n].
Qed.

Lemma contains_unfold (needle hay : string) :
  contains needle hay
  = String.prefix needle hay
    || match hay with
       | EmptyString => false
       | String _ rest => contains needle rest
       end.
Proof. destruct hay; reflexivity. Qed.

Lemma contains_prefix (x t : string) : contains x (x ++ t) = true.
Proof. rewrite contains_unfold, prefix_app. reflexivity. Qed.

Lemma contains_app (pre x post : string) :
  contains x (pre ++ x ++ post) = true.
Proof.
  induction pre as [|c pre IH]; simpl.
  - apply contains_prefix.
  - rewrite IH. apply orb_true_r.
Qed.

Lemma append_empty_r (x : string) : x ++ EmptyString = x.
Proof. induction x as [|c x IH]; simpl; [reflexivity | now rewrite IH]. Qed.

Lemma contains_skip (pre x : string) : contains x (pre ++ x) = true.
Proof.
  rewrite <- (contains_app pre x EmptyString), append_empty_r. reflexivity.
Qed.

Lemma casing_of_lower (t s : string) :
  casing_of t s = true -> lower s = lower t.
Proof.
  revert s. induction t as [|a t IH]; intros [|b s] H; simpl in *;
    try discriminate; try reflexivity.
  apply andb_true_iff in H as [Hab Hts].
  apply Ascii.eqb_eq in Hab. rewrite Hab, (IH s Hts). reflexivity.
Qed.

(** ** Rendering the two templates *)

Lemma render_cypher_prompt (question : string) :
  format CYPHER_GENERATION_TEMPLATE [("question", question)]
  = Ok (cypher_prompt_before ++ question ++ cypher_prompt_after).
Proof. vm_compute. reflexivity. Qed.

(** ** The chain call and the six capability functions *)

Section CapabilityFacts.

Variable graph_qa : nat -> string -> outcome dict.
Variable llm_reply : nat -> string -> outcome string.

(** One call of the chain sends one prompt: the fixed text around the
    query. *)
Lemma cypher_chain_invoke_sends (query : string) (w : world) :
  cypher_chain_invoke graph_qa [("query", query)] w
  = (graph_qa (length (chain_prompts w)) (cypher_prompt query),
     with_chain_prompt (cypher_prompt query) w).
Proof.
  unfold cypher_chain_invoke.
  change (dict_get [("query", query)] "query") with (Some query).
  cbv beta iota. rewrite render_cypher_prompt. reflexivity.
Qed.

(** Each capability function is the forwarding function at its own
    fallback sentence. *)
Lemma capability_is_forwarder (c : capability) :
  capability_func graph_qa c
  = forward_to_chain graph_qa (registered_fallback c).
Proof. destruct c; reflexivity. Qed.

Lemma forward_on_success (fallback query : string) (w : world) (result : dict) :
  graph_qa (length (chain_prompts w)) (cypher_prompt query) = Ok result ->
  forward_to_chain graph_qa fallback query w
  = (Ok (PDict result), with_chain_prompt (cypher_prompt query) w).
Proof.
  intros H. unfold forward_to_chain, try_except, bind.
  rewrite cypher_chain_invoke_sends, H. reflexivity.
Qed.

Lemma forward_on_exception (fallback query : string) (w : world) (e : exn) :
  graph_qa (length (chain_prompts w)) (cypher_prompt query) = Raise e ->
  forward_to_chain graph_qa fallback query w
  = (Ok (PStr fallback),
     wrote (exn_str e ++ nl)
       (logged ("ERROR:root:Cypher error occurred: " ++ exn_str e)
          (with_chain_prompt (cypher_prompt query) w))).
Proof.
  intros H. unfold forward_to_chain, try_except, bind.
  rewrite cypher_chain_invoke_sends, H. reflexivity.
Qed.

(** C2: when the chain invocation raises, each of the six capability
    functions returns (does not raise) exactly the fallback sentence
    registered for it, adds exactly one record to the error log, which
    contains the text of the exception, and has sent exactly one prompt to
    the chain: a single attempt. *)
Theorem capability_exception_fallback
    (c : capability) (query : string) (e : exn) (w w1 : world) :
  cypher_chain_invoke graph_qa [("query", query)] w = (Raise e, w1) ->
  exists record w',
    capability_func graph_qa c query w
    = (Ok (PStr (registered_fallback c)), w')
    /\ errlog w' = (errlog w ++ [record])%list
    /\ contains (exn_str e) record = true
    /\ chain_prompts w' = (chain_prompts w ++ [cypher_prompt query])%list.
Proof.
  intros H. rewrite cypher_chain_invoke_sends in H.
  injection H as Hq _.
  rewrite capability_is_forwarder, (forward_on_exception _ _ _ _ Hq).
  eexists. eexists. split; [reflexivity|]. simpl.
  split; [reflexivity|]. split; [|reflexivity].
  apply (contains_skip "ERROR:root:Cypher error occurred: " (exn_str e)).
Qed.

(** Two capabilities act on the world in the same way, and return the same
    chain result or each its own fallback sentence. *)
Lemma capabilities_agree (c1 c2 : capability) (query : string) (w : world) :
  snd (capability_func graph_qa c1 query w)
  = snd (capability_func graph_qa c2 query w)
  /\ (fst (capability_func graph_qa c1 query w)
      = fst (capability_func graph_qa c2 query w)
      \/ (fst (capability_func graph_qa c1 query w)
          = Ok (PStr (registered_fallback c1))
          /\ fst (capability_func graph_qa c2 query w)
             = Ok (PStr (registered_fallback c2)))).
Proof.
  rewrite !capability_is_forwarder.
  destruct (graph_qa (length (chain_prompts w)) (cypher_prompt query))
    as [result|e] eqn:E.
  - rewrite (forward_on_success (registered_fallback c1) _ _ _ E),
      (forward_on_success (registered_fallback c2) _ _ _ E).
    split; [reflexivity|]. left. reflexivity.
  - rewrite (forward_on_exception (registered_fallback c1) _ _ _ E),
      (forward_on_exception (registered_fallback c2) _ _ _ E).
    split; [reflexivity|]. right. split; reflexivity.
Qed.

(** The raw model call sends nothing to the chain. *)
Lemma llm_invoke_world (text : string) (w : world) :
  snd (llm_invoke llm_reply text w) = with_llm_input text w.
Proof. reflexivity. Qed.

(** C4: the tool table has exactly seven entries, with seven distinct names;
    the first six are one and the same forwarding function to the chain,
    taken at six distinct fallback sentences, so any two of them change the
    world alike and return the same chain result or each its own fallback
    sentence; the seventh, General Chat, is the raw model call, which makes
    one model request and sends no prompt to the chain. *)
Theorem seven_capabilities :
  map name (tools graph_qa llm_reply)
  = ["Product Information"; "Order Tracking"; "Supplier Information";
     "Warehouse Inventory"; "Purchase Order Information";
     "Customer Information"; "General Chat"]
  /\ NoDup (map name (tools graph_qa llm_reply))
  /\ map func (firstn 6 (tools graph_qa llm_reply))
     = map (fun c => forward_to_chain graph_qa (registered_fallback c))
           all_capabilities
  /\ NoDup (map registered_fallback all_capabilities)
  /\ (forall (c1 c2 : capability) (query : string) (w : world),
        snd (capability_func graph_qa c1 query w)
        = snd (capability_func graph_qa c2 query w)
        /\ (fst (capability_func graph_qa c1 query w)
            = fst (capability_func graph_qa c2 query w)
            \/ (fst (capability_func graph_qa c1 query w)
                = Ok (PStr (registered_fallback c1))
                /\ fst (capability_func graph_qa c2 query w)
                   = Ok (PStr (registered_fallback c2)))))
  /\ map func (skipn 6 (tools graph_qa llm_reply)) = [llm_invoke llm_reply]
  /\ forall (text : string) (w : world),
       chain_prompts (snd (llm_invoke llm_reply text w)) = chain_prompts w
       /\ llm_inputs (snd (llm_invoke llm_reply text w))
          = (llm_inputs w ++ [text])%list.
Proof.
  split; [reflexivity|].
  split; [repeat constructor; simpl; intuition discriminate|].
  split; [reflexivity|].
  split; [repeat constructor; simpl; intuition discriminate|].
  split; [exact capabilities_agree|].
  split; [reflexivity|].
  intros text w. split; reflexivity.
Qed.

End CapabilityFacts.

(** ** The response generator *)

Section ResponseFacts.

Variable os_urandom16 : nat -> N.
Variable graph_qa : nat -> string -> outcome dict.
Variable llm_reply : nat -> string -> outcome string.
Variable agent : nat -> history_handle -> string -> plan.
Variable repr_dict : dict -> string.

Local Abbreviation generate_response' :=
  (generate_response os_urandom16 graph_qa llm_reply agent repr_dict).
Local Abbreviation chat_agent_invoke' :=
  (chat_agent_invoke graph_qa llm_reply agent).
Local Abbreviation next_session w :=
  (session_of_draw os_urandom16 (entropy_used w)).

Lemma get_session_id_draws (w : world) :
  get_session_id os_urandom16 w = (Ok (next_session w), with_draw w).
Proof. reflexivity. Qed.

(** What one call does, by the outcome of the pipeline it runs. *)
Lemma generate_response_cases (user_input : string) (w : world) :
  generate_response' user_input w
  = match chat_agent_invoke' [("input", user_input)] (next_session w)
                             (with_draw w) with
    | (Raise e, w1) =>
        (Ok generic_error_answer,
         logged ("ERROR:root:Error generating response: " ++ exn_str e) w1)
    | (Ok response, w1) =>
        match dict_get response "output" with
        | None =>
            (Ok generic_error_answer,
             logged "ERROR:root:Error generating response: 'output'"
                    (wrote (repr_dict response ++ nl) w1))
        | Some output =>
            (Ok (if truthy output then output else not_found_answer),
             wrote (repr_dict response ++ nl) w1)
        end
    end.
Proof.
  unfold generate_response, try_except, bind at 1.
  rewrite get_session_id_draws.
  unfold bind at 1.
  destruct (chat_agent_invoke' [("input", user_input)] (next_session w)
                               (with_draw w)) as [[response|e] w1];
    [|reflexivity].
  unfold bind, print, write, subscript.
  destruct (dict_get response "output") as [output|] eqn:Hout;
    [|reflexivity].
  unfold ret. destruct (truthy output); reflexivity.
Qed.

Lemma generate_response_returns (user_input : string) (w : world) :
  exists (response : string) (w1 : world),
    generate_response' user_input w = (Ok response, w1).
Proof.
  rewrite generate_response_cases.
  destruct (chat_agent_invoke' [("input", user_input)] (next_session w)
                               (with_draw w)) as [[response|e] w1];
    [destruct (dict_get response "output")|]; eexists; eexists; reflexivity.
Qed.

(** C9: [generate_response] always returns a string and never raises,
    whatever the pipeline does: its answer is the generic sentence when the
    pipeline raises or its result has no ['output'] key, the not-found
    sentence when the output is empty, and the output otherwise. *)
Theorem generate_response_total (user_input : string) (w : world) :
  fst (generate_response' user_input w)
  = Ok match fst (chat_agent_invoke' [("input", user_input)]
                                     (next_session w) (with_draw w)) with
       | Raise _ => generic_error_answer
       | Ok response =>
           match dict_get response "output" with
           | None => generic_error_answer
           | Some output => if truthy output then output else not_found_answer
           end
       end.
Proof.
  rewrite generate_response_cases.
  destruct (chat_agent_invoke' [("input", user_input)] (next_session w)
                               (with_draw w)) as [[response|e] w1];
    [|reflexivity].
  simpl. destruct (dict_get response "output"); reflexivity.
Qed.

Lemma truthy_nonempty (s : string) : s <> EmptyString -> truthy s = true.
Proof. destruct s; [intros H; now elim H | reflexivity]. Qed.

(** C1, as the code has it: when the pipeline call succeeds and the result
    has an ['output'] entry, an empty entry gives the not-found sentence and
    a non-empty one is returned unchanged; when the result has no ['output']
    entry, the lookup raises [KeyError], which the catch-all turns into the
    generic sentence and one log record. *)
Theorem generate_response_on_success
    (user_input : string) (w w1 : world) (response : dict) :
  chat_agent_invoke' [("input", user_input)] (next_session w) (with_draw w)
  = (Ok response, w1) ->
  (dict_get response "output" = Some EmptyString ->
   generate_response' user_input w
   = (Ok not_found_answer, wrote (repr_dict response ++ nl) w1))
  /\ (forall output : string,
        dict_get response "output" = Some output -> output <> EmptyString ->
        generate_response' user_input w
        = (Ok output, wrote (repr_dict response ++ nl) w1))
  /\ (dict_get response "output" = None ->
      generate_response' user_input w
      = (Ok generic_error_answer,
         logged "ERROR:root:Error generating response: 'output'"
                (wrote (repr_dict response ++ nl) w1))).
Proof.
  intros H. rewrite generate_response_cases, H.
  split; [|split].
  - intros ->. reflexivity.
  - intros output -> Hne. rewrite (truthy_nonempty _ Hne). reflexivity.
  - intros ->. reflexivity.
Qed.

(** C3, as the code has it: on an exception of the chain, a capability
    function returns its fixed sentence but also prints the text of the
    exception to standard output; on an exception of the pipeline,
    [generate_response] returns the generic sentence, prints nothing and
    writes the text of the exception to the log only. *)
Theorem exception_text_output :
  (forall (c : capability) (query : string) (e : exn) (w w1 : world),
      cypher_chain_invoke graph_qa [("query", query)] w = (Raise e, w1) ->
      capability_func graph_qa c query w
      = (Ok (PStr (registered_fallback c)),
         wrote (exn_str e ++ nl)
           (logged ("ERROR:root:Cypher error occurred: " ++ exn_str e) w1)))
  /\ (forall (user_input : string) (e : exn) (w w1 : world),
        chat_agent_invoke' [("input", user_input)] (next_session w)
                           (with_draw w) = (Raise e, w1) ->
        generate_response' user_input w
        = (Ok generic_error_answer,
           logged ("ERROR:root:Error generating response: " ++ exn_str e) w1)
        /\ stdout (snd (generate_response' user_input w)) = stdout w1).
Proof.
  split.
  - intros c query e w w1 H. rewrite cypher_chain_invoke_sends in H.
    injection H as Hq <-.
    rewrite capability_is_forwarder. apply forward_on_exception, Hq.
  - intros user_input e w w1 H. rewrite generate_response_cases, H.
    split; reflexivity.
Qed.

End ResponseFacts.

(** ** The console loop *)

Section LoopFacts.

Variable os_urandom16 : nat -> N.
Variable graph_qa : nat -> string -> outcome dict.
Variable llm_reply : nat -> string -> outcome string.
Variable agent : nat -> history_handle -> string -> plan.
Variable repr_dict : dict -> string.

Local Abbreviation generate_response' :=
  (generate_response os_urandom16 graph_qa llm_reply agent repr_dict).
Local Abbreviation chat_turns' :=
  (chat_turns os_urandom16 graph_qa llm_reply agent repr_dict).

(** The exit test is equality of the whole lower-cased line with one of the
    two words. *)
Lemma exit_test_spec (line : string) :
  in_list (lower line) ["exit"; "quit"] = true
  <-> lower line = "exit" \/ lower line = "quit".
Proof.
  unfold in_list, existsb. rewrite !orb_true_iff, !String.eqb_eq.
  intuition discriminate.
Qed.

(** One turn of the loop. *)
Lemma chat_turns_cons (line : string) (rest : list string) (w : world) :
  chat_turns' (line :: rest) w
  = if in_list (lower line) ["exit"; "quit"]
    then (Ok tt, wrote ("Chatbot: Goodbye!" ++ nl) (wrote "You: " w))
    else match generate_response' line (wrote "You: " w) with
         | (Ok response, w1) =>
             chat_turns' rest (wrote (("Chatbot: " ++ response) ++ nl) w1)
         | (Raise e, w1) => (Raise e, w1)
         end.
Proof.
  cbn [chat_turns]. unfold input, print, write. unfold bind, ret.
  cbv beta iota.
  destruct (in_list (lower line) ["exit"; "quit"]); [reflexivity|].
  destruct (generate_response' line (wrote "You: " w)) as [[r|e] w1];
    reflexivity.
Qed.

Lemma chat_turns_exit (line : string) (rest : list string) (w : world) :
  in_list (lower line) ["exit"; "quit"] = true ->
  chat_turns' (line :: rest) w
  = (Ok tt, wrote ("Chatbot: Goodbye!" ++ nl) (wrote "You: " w)).
Proof. intros H. rewrite chat_turns_cons, H. reflexivity. Qed.

Lemma chat_turns_answer (line : string) (rest : list string) (w : world) :
  in_list (lower line) ["exit"; "quit"] = false ->
  exists (response : string) (w1 : world),
    generate_response' line (wrote "You: " w) = (Ok response, w1)
    /\ chat_turns' (line :: rest) w
       = chat_turns' rest (wrote (("Chatbot: " ++ response) ++ nl) w1).
Proof.
  intros H.
  destruct (generate_response_returns os_urandom16 graph_qa llm_reply agent
              repr_dict line (wrote "You: " w))
    as (response & w1 & Hg).
  exists response, w1. split; [exact Hg|].
  rewrite chat_turns_cons, H, Hg. reflexivity.
Qed.

(** C5: a line whose lower-cased content is "exit" or "quit" (so each of
    those words in any letter casing: all 32 spellings pass the test) ends
    the loop at once: only the prompt and the goodbye are written, and
    [generate_response] is not called; any other line is passed to
    [generate_response] and the answer is printed before the loop goes
    on. *)
Theorem chat_loop_exit_or_answer
    (line : string) (rest : list string) (w : world) :
  (in_list (lower line) ["exit"; "quit"] = true ->
   chat_turns' (line :: rest) w
   = (Ok tt, wrote ("Chatbot: Goodbye!" ++ nl) (wrote "You: " w)))
  /\ (in_list (lower line) ["exit"; "quit"] = false ->
      exists (response : string) (w1 : world),
        generate_response' line (wrote "You: " w) = (Ok response, w1)
        /\ chat_turns' (line :: rest) w
           = chat_turns' rest (wrote (("Chatbot: " ++ response) ++ nl) w1))
  /\ (casing_of "exit" line = true \/ casing_of "quit" line = true ->
      in_list (lower line) ["exit"; "quit"] = true)
  /\ length (casings "exit" ++ casings "quit")%list = 32
  /\ forallb (fun s => in_list (lower s) ["exit"; "quit"])
             (casings "exit" ++ casings "quit")%list = true.
Proof.
  split; [apply chat_turns_exit|]. split; [apply chat_turns_answer|].
  split; [|split; reflexivity].
  intros H. apply exit_test_spec.
  destruct H as [H|H]; apply casing_of_lower in H; [left|right]; exact H.
Qed.

(** C10: the exit test is an exact comparison of the whole lower-cased line:
    a line that is neither word after lower-casing goes to
    [generate_response] and the loop continues; padding with blanks or
    further words makes a line such a line. *)
Theorem only_exact_exit_words_stop
    (line : string) (rest : list string) (w : world) :
  lower line <> "exit" -> lower line <> "quit" ->
  in_list (lower line) ["exit"; "quit"] = false
  /\ (exists (response : string) (w1 : world),
        generate_response' line (wrote "You: " w) = (Ok response, w1)
        /\ chat_turns' (line :: rest) w
           = chat_turns' rest (wrote (("Chatbot: " ++ response) ++ nl) w1))
  /\ in_list (lower " exit ") ["exit"; "quit"] = false
  /\ in_list (lower "exit now") ["exit"; "quit"] = false
  /\ in_list (lower "Quit.") ["exit"; "quit"] = false.
Proof.
  intros He Hq.
  assert (H : in_list (lower line) ["exit"; "quit"] = false).
  { destruct (in_list (lower line) ["exit"; "quit"]) eqn:E; [|reflexivity].
    apply exit_test_spec in E. tauto. }
  split; [exact H|]. split; [apply chat_turns_answer, H|].
  repeat split.
Qed.

End LoopFacts.

(** ** Session identifiers *)

Module UuidFacts.
Import Uuid.
Open Scope N_scope.

Lemma hex_value_digit (d : N) : d < 16 -> hex_value (hex_digit d) = d.
Proof.
  intros H.
  assert (C : d = 0 \/ d = 1 \/ d = 2 \/ d = 3 \/ d = 4 \/ d = 5 \/ d = 6
              \/ d = 7 \/ d = 8 \/ d = 9 \/ d = 10 \/ d = 11 \/ d = 12
              \/ d = 13 \/ d = 14 \/ d = 15) by lia.
  repeat (destruct C as [->|C]; [reflexivity|]). subst d. reflexivity.
Qed.

Lemma unhex_snoc (l : list ascii) (c : ascii) :
  unhex (l ++ [c]) = unhex l * 16 + hex_value c.
Proof. unfold unhex. rewrite fold_left_app. reflexivity. Qed.

(** Printing then reading a number gives it back, up to the width. *)
Lemma unhex_hex_fixed (width : nat) (n : N) :
  unhex (hex_fixed width n) = n mod 16 ^ N.of_nat width.
Proof.
  revert n. induction width as [|k IH]; intros n.
  - simpl. now rewrite N.mod_1_r.
  - cbn [hex_fixed]. rewrite unhex_snoc, IH, hex_value_digit
      by (apply N.mod_lt; discriminate).
    rewrite Nat2N.inj_succ, N.pow_succ_r', N.Div0.mod_mul_r. lia.
Qed.

Lemma hex_fixed_length (width : nat) (n : N) :
  length (hex_fixed width n) = width.
Proof.
  revert n. induction width as [|k IH]; intros n; cbn [hex_fixed].
  - reflexivity.
  - rewrite length_app, IH. simpl. lia.
Qed.

(** Removing the dashes of the 8-4-4-4-12 grouping gives the digits back. *)
Lemma ungroup_grouped (hex : list ascii) :
  length hex = 32%nat ->
  ungroup (firstn 8 hex ++ dash :: firstn 4 (skipn 8 hex) ++ dash ::
           firstn 4 (skipn 12 hex) ++ dash :: firstn 4 (skipn 16 hex) ++
           dash :: skipn 20 hex)%list
  = hex.
Proof.
  intros H.
  do 32 (destruct hex as [|? hex]; [discriminate H|]).
  destruct hex; [reflexivity | discriminate H].
Qed.

(** Round trip: an identifier reads back as the integer it prints. *)
Lemma parse_uuid_str (i : N) : parse_uuid (uuid_str i) = i mod 2 ^ 128.
Proof.
  unfold parse_uuid, uuid_str.
  rewrite list_ascii_of_string_of_list_ascii.
  rewrite ungroup_grouped by apply hex_fixed_length.
  rewrite unhex_hex_fixed. reflexivity.
Qed.

Lemma uuid_str_inj (i j : N) :
  i < 2 ^ 128 -> j < 2 ^ 128 -> uuid_str i = uuid_str j -> i = j.
Proof.
  intros Hi Hj H. apply (f_equal parse_uuid) in H.
  rewrite !parse_uuid_str, !N.mod_small in H by assumption. exact H.
Qed.

(** *** The overwritten bits *)

Lemma high_bits_small (a : N) (n m : N) :
  a < 2 ^ n -> n <= m -> N.testbit a m = false.
Proof.
  intros Ha Hm. rewrite <- (N.mod_small a (2 ^ n)) by exact Ha.
  apply N.mod_pow2_bits_high, Hm.
Qed.

Lemma small_high_bits (a : N) (n : N) :
  (forall m, n <= m -> N.testbit a m = false) -> a < 2 ^ n.
Proof.
  intros H. rewrite <- (N.mod_small a (2 ^ n)) at 1.
  - apply N.mod_lt, N.pow_nonzero. discriminate.
  - destruct (N.lt_ge_cases a (2 ^ n)) as [L|G]; [exact L|].
    exfalso. destruct (N.eq_dec a 0) as [->|Hz].
    + apply N.le_0_r in G. revert G. apply N.pow_nonzero. discriminate.
    + pose proof (N.log2_le_mono _ _ G) as Hl.
      rewrite N.log2_pow2 in Hl by apply N.le_0_l.
      pose proof (N.bit_log2 a Hz) as Hb.
      rewrite (H _ Hl) in Hb. discriminate.
Qed.

(** [uuid4_int] keeps the random bits and sets the six others. *)
Lemma uuid4_int_split (r : N) :
  uuid4_int r = N.lor (random_bits r) (N.lor variant_bits version_bits).
Proof.
  unfold uuid4_int, random_bits. cbv zeta.
  assert (D : N.land variant_bits version_mask = 0) by reflexivity.
  bitwise m.
  apply (f_equal (fun x => N.testbit x m)) in D.
  rewrite N.land_spec, N.bits_0 in D.
  destruct (N.testbit (r mod 2 ^ 128) m), (N.testbit variant_mask m),
    (N.testbit variant_bits m), (N.testbit version_mask m),
    (N.testbit version_bits m); simpl in *; congruence.
Qed.

Lemma random_bits_of_uuid4_int (r : N) :
  N.ldiff (uuid4_int r) (N.lor variant_mask version_mask) = random_bits r.
Proof.
  unfold uuid4_int, random_bits. cbv zeta.
  assert (V : N.ldiff variant_bits variant_mask = 0) by reflexivity.
  assert (W : N.ldiff version_bits version_mask = 0) by reflexivity.
  bitwise m.
  apply (f_equal (fun x => N.testbit x m)) in V, W.
  rewrite N.ldiff_spec, N.bits_0 in V, W.
  destruct (N.testbit (r mod 2 ^ 128) m), (N.testbit variant_mask m),
    (N.testbit variant_bits m), (N.testbit version_mask m),
    (N.testbit version_bits m); simpl in *; congruence.
Qed.

Lemma uuid4_int_bound (r : N) : uuid4_int r < 2 ^ 128.
Proof.
  apply small_high_bits. intros m Hm. unfold uuid4_int. cbv zeta.
  repeat rewrite ?N.lor_spec, ?N.ldiff_spec.
  rewrite (N.mod_pow2_bits_high r 128 m Hm).
  rewrite (high_bits_small variant_bits 128 m) by (reflexivity || exact Hm).
  rewrite (high_bits_small version_bits 128 m) by (reflexivity || exact Hm).
  reflexivity.
Qed.

(** Two draws give the same identifier exactly when they agree on the 122
    bits that are not overwritten. *)
Lemma uuid4_str_eq_iff (r1 r2 : N) :
  uuid4_str r1 = uuid4_str r2 <-> random_bits r1 = random_bits r2.
Proof.
  unfold uuid4_str. split; intros H.
  - apply uuid_str_inj in H; try apply uuid4_int_bound.
    rewrite <- !random_bits_of_uuid4_int, H. reflexivity.
  - rewrite !uuid4_int_split, H. reflexivity.
Qed.

Close Scope N_scope.
End UuidFacts.

(** ** One session identifier per turn *)

Section SessionFacts.

Variable os_urandom16 : nat -> N.
Variable graph_qa : nat -> string -> outcome dict.
Variable llm_reply : nat -> string -> outcome string.
Variable agent : nat -> history_handle -> string -> plan.
Variable repr_dict : dict -> string.

Local Abbreviation generate_response' :=
  (generate_response os_urandom16 graph_qa llm_reply agent repr_dict).
Local Abbreviation chat_turns' :=
  (chat_turns os_urandom16 graph_qa llm_reply agent repr_dict).
Local Abbreviation chat_loop' :=
  (chat_loop os_urandom16 graph_qa llm_reply agent repr_dict).
Local Abbreviation tools' := (tools graph_qa llm_reply).
Local Abbreviation agent_executor' := (agent_executor graph_qa llm_reply).

Lemma same_ids_trans (w1 w2 w3 : world) :
  same_ids w1 w2 -> same_ids w2 w3 -> same_ids w1 w3.
Proof. unfold same_ids. intros [-> ->] [-> ->]. split; reflexivity. Qed.

Lemma capability_keeps_ids (c : capability) (query : string) (w : world) :
  same_ids w (snd (capability_func graph_qa c query w)).
Proof.
  rewrite capability_is_forwarder.
  destruct (graph_qa (length (chain_prompts w)) (cypher_prompt query))
    as [result|e] eqn:E.
  - rewrite (forward_on_success _ _ _ _ _ E). split; reflexivity.
  - rewrite (forward_on_exception _ _ _ _ _ E). split; reflexivity.
Qed.

Lemma tool_keeps_ids (t : tool) (text : string) (w : world) :
  In t tools' -> same_ids w (snd (func t text w)).
Proof.
  intros H. unfold tools in H. simpl in H.
  destruct H as [<-|[<-|[<-|[<-|[<-|[<-|[<-|[]]]]]]]]; cbn [func].
  - apply (capability_keeps_ids ProductInformation).
  - apply (capability_keeps_ids OrderTracking).
  - apply (capability_keeps_ids SupplierInformation).
  - apply (capability_keeps_ids WarehouseInventory).
  - apply (capability_keeps_ids PurchaseOrderInformation).
  - apply (capability_keeps_ids CustomerInformation).
  - split; reflexivity.
Qed.

Lemma find_tool_In (requested : string) (ts : list tool) (t : tool) :
  find_tool requested ts = Some t -> In t ts.
Proof.
  induction ts as [|t0 ts IH]; simpl; [discriminate|].
  destruct (String.eqb (name t0) requested).
  - intros [= ->]. now left.
  - intros H. right. exact (IH H).
Qed.

Lemma agent_executor_keeps_ids (p : plan) (w : world) :
  same_ids w (snd (agent_executor' p w)).
Proof.
  revert w. induction p as [[result|e]|requested tool_input next IH];
    intros w; try (split; reflexivity).
  cbn [agent_executor].
  destruct (find_tool requested tools') as [t|] eqn:F; [|apply IH].
  unfold bind.
  pose proof (tool_keeps_ids t tool_input w (find_tool_In _ _ _ F)) as Ht.
  destruct (func t tool_input w) as [[observation|e] w1]; simpl in Ht.
  - eapply same_ids_trans; [exact Ht | apply IH].
  - exact Ht.
Qed.

Lemma generate_response_ids (user_input : string) (w : world) :
  sessions (snd (generate_response' user_input w))
  = (sessions w ++ [session_of_draw os_urandom16 (entropy_used w)])%list
  /\ entropy_used (snd (generate_response' user_input w))
     = S (entropy_used w).
Proof.
  rewrite generate_response_cases.
  unfold chat_agent_invoke, bind, subscript.
  change (dict_get [("input", user_input)] "input") with (Some user_input).
  unfold ret.
  match goal with
  | |- context [agent_executor' ?p ?w0] =>
      pose proof (agent_executor_keeps_ids p w0) as [He Hs];
      destruct (agent_executor' p w0) as [[response|e] w1]
  end; simpl in He, Hs.
  - destruct (dict_get response "output"); simpl; rewrite He, Hs;
      split; reflexivity.
  - simpl. rewrite He, Hs. split; reflexivity.
Qed.

Lemma chat_turns_sessions (lines : list string) (w : world) :
  sessions (snd (chat_turns' lines w))
  = (sessions w
     ++ map (session_of_draw os_urandom16)
            (seq (entropy_used w) (turns_before_exit lines)))%list.
Proof.
  revert w. induction lines as [|line rest IH]; intros w.
  - simpl. now rewrite app_nil_r.
  - rewrite chat_turns_cons. cbn [turns_before_exit].
    destruct (in_list (lower line) ["exit"; "quit"]).
    + simpl. now rewrite app_nil_r.
    + destruct (generate_response_returns os_urandom16 graph_qa llm_reply
                  agent repr_dict line (wrote "You: " w))
        as (response & w1 & Hg).
      pose proof (generate_response_ids line (wrote "You: " w)) as [Hs He].
      rewrite Hg in Hs, He |- *. simpl in Hs, He.
      rewrite IH. cbn [sessions wrote entropy_used].
      rewrite Hs, He. cbn [seq map]. now rewrite <- app_assoc.
Qed.

Lemma chat_loop_sessions (lines : list string) (w : world) :
  sessions (snd (chat_loop' lines w))
  = (sessions w
     ++ map (session_of_draw os_urandom16)
            (seq (entropy_used w) (turns_before_exit lines)))%list.
Proof.
  unfold chat_loop, bind, print, write.
  exact (chat_turns_sessions lines _).
Qed.

(** C7, as the code has it: two successive calls of [get_session_id] both
    return, each from a draw of its own, and their values are equal exactly
    when the two draws agree on the 122 bits that the version and variant
    fields do not overwrite; so they are distinct whenever the draws differ
    there. *)
Theorem successive_session_ids (w : world) :
  exists (s1 s2 : string) (w1 w2 : world),
    get_session_id os_urandom16 w = (Ok s1, w1)
    /\ get_session_id os_urandom16 w1 = (Ok s2, w2)
    /\ (s1 = s2
        <-> Uuid.random_bits (os_urandom16 (entropy_used w))
            = Uuid.random_bits (os_urandom16 (S (entropy_used w)))).
Proof.
  exists (session_of_draw os_urandom16 (entropy_used w)),
         (session_of_draw os_urandom16 (S (entropy_used w))),
         (with_draw w), (with_draw (with_draw w)).
  split; [reflexivity|]. split; [reflexivity|].
  apply UuidFacts.uuid4_str_eq_iff.
Qed.

(** C6, as the code has it: every call of [generate_response] makes one new
    draw and binds the pipeline to the identifier made from it, so a run of
    the loop uses the identifiers of consecutive draws, one per answered
    line, and never stores one for a later turn; these identifiers are
    pairwise distinct whenever the draws differ pairwise on their 122
    random bits. *)
Theorem session_per_turn :
  (forall (user_input : string) (w : world),
      sessions (snd (generate_response' user_input w))
      = (sessions w ++ [session_of_draw os_urandom16 (entropy_used w)])%list
      /\ entropy_used (snd (generate_response' user_input w))
         = S (entropy_used w))
  /\ (forall (lines : list string) (w : world),
        sessions (snd (chat_loop' lines w))
        = (sessions w
           ++ map (session_of_draw os_urandom16)
                  (seq (entropy_used w) (turns_before_exit lines)))%list)
  /\ (forall (first turns : nat),
        (forall i j : nat,
            first <= i < first + turns -> first <= j < first + turns ->
            Uuid.random_bits (os_urandom16 i)
            = Uuid.random_bits (os_urandom16 j) -> i = j) ->
        NoDup (map (session_of_draw os_urandom16) (seq first turns))).
Proof.
  split; [exact generate_response_ids|].
  split; [exact chat_loop_sessions|].
  intros first turns H.
  apply NoDup_map_NoDup_ForallPairs; [|apply seq_NoDup].
  intros i j Hi Hj E. apply in_seq in Hi, Hj.
  apply H; [exact Hi | exact Hj |].
  apply UuidFacts.uuid4_str_eq_iff, E.
Qed.

End SessionFacts.

(** ** The prompts *)

Lemma prefix_split (s t : string) :
  String.prefix s t = true -> exists rest, t = s ++ rest.
Proof.
  revert t. induction s as [|c s IH]; intros t H.
  - exists t. reflexivity.
  - destruct t as [|d t]; [discriminate H|]. simpl in H.
    destruct (ascii_dec c d) as [->|]; [|discriminate H].
    destruct (IH t H) as [rest ->]. exists rest. reflexivity.
Qed.

Lemma contains_split (x hay : string) :
  contains x hay = true -> exists pre post, hay = pre ++ x ++ post.
Proof.
  induction hay as [|c hay IH]; rewrite contains_unfold; intros H;
    apply orb_true_iff in H as [H|H].
  - apply prefix_split in H as [rest ->]. exists EmptyString, rest. reflexivity.
  - discriminate H.
  - apply prefix_split in H as [rest ->]. exists EmptyString, rest. reflexivity.
  - destruct (IH H) as (pre & post & ->).
    exists (String c pre), post. reflexivity.
Qed.

Lemma append_assoc (a b c : string) : (a ++ b) ++ c = a ++ b ++ c.
Proof. induction a as [|x a IH]; simpl; [reflexivity | now rewrite IH]. Qed.

(** Text around a string keeps what the string contains. *)
Lemma contains_inside (x pre hay post : string) :
  contains x hay = true -> contains x (pre ++ hay ++ post) = true.
Proof.
  intros H. apply contains_split in H as (a & b & ->).
  rewrite !append_assoc, <- (append_assoc pre a). apply contains_app.
Qed.

Section PromptFacts.

Variable graph_qa : nat -> string -> outcome dict.
Variable current_year : N.
Variable current_month_name : string.

(** The f-string evaluates to the head, the month, a blank, the year and
    the rest. *)
Lemma agent_prompt_renders :
  agent_prompt current_year current_month_name
  = Ok (agent_prompt_head ++ current_month_name ++ " "
        ++ str_of_N current_year
        ++ literal_text [("current_month_name", current_month_name);
                         ("current_year", str_of_N current_year)]
                        agent_prompt_tail).
Proof.
  unfold agent_prompt. generalize (str_of_N current_year). intros year.
  vm_compute. reflexivity.
Qed.

Lemma capability_sends_query (c : capability) (query : string) (w : world) :
  chain_prompts (snd (capability_func graph_qa c query w))
  = (chain_prompts w ++ [cypher_prompt query])%list.
Proof.
  rewrite capability_is_forwarder.
  destruct (graph_qa (length (chain_prompts w)) (cypher_prompt query))
    as [result|e] eqn:E.
  - rewrite (forward_on_success _ _ _ _ _ E). reflexivity.
  - rewrite (forward_on_exception _ _ _ _ _ E). reflexivity.
Qed.

(** C8, as the code has it: the rule that reads "this month" as the current
    month name and year is a sentence of the agent prompt, written for the
    language model; the query-generation prompt is fixed text around the
    tool input the agent chose, inserted as it is, so it contains the month
    name and the year when that tool input does; the program substitutes
    nothing itself. *)
Theorem date_rule_is_in_agent_prompt :
  (exists before after : string,
      agent_prompt current_year current_month_name
      = Ok (before ++ "interpret it as " ++ dq ++ current_month_name ++ " "
            ++ str_of_N current_year ++ dq ++ after))
  /\ (forall (c : capability) (query : string) (w : world),
        chain_prompts (snd (capability_func graph_qa c query w))
        = (chain_prompts w ++ [cypher_prompt query])%list
        /\ cypher_prompt query
           = cypher_prompt_before ++ query ++ cypher_prompt_after)
  /\ (forall (c : capability) (query : string) (w : world) (x : string),
        contains x query = true ->
        exists prompt : string,
          chain_prompts (snd (capability_func graph_qa c query w))
          = (chain_prompts w ++ [prompt])%list
          /\ contains x prompt = true).
Proof.
  split; [|split].
  - exists (substring 0 (String.length agent_prompt_head - 17)
                      agent_prompt_head),
           (literal_text [("current_month_name", current_month_name);
                          ("current_year", str_of_N current_year)]
                         (substring 1 (String.length agent_prompt_tail)
                                    agent_prompt_tail)).
    rewrite agent_prompt_renders.
    generalize (str_of_N current_year). intros year.
    vm_compute. reflexivity.
  - intros c query w. split; [apply capability_sends_query | reflexivity].
  - intros c query w x H. exists (cypher_prompt query).
    split; [apply capability_sends_query|].
    apply contains_inside, H.
Qed.

End PromptFacts.

(** ** Worked runs *)

Module Runs.
Import Scenario.

(** The error path of a capability, on a chain that is down. *)
Lemma capability_exception_fallback_run :
  exists (record : string) (w' : world),
    capability_func failing_chain OrderTracking "Where is order 7" empty_world
    = (Ok (PStr (registered_fallback OrderTracking)), w')
    /\ errlog w' = (errlog empty_world ++ [record])%list
    /\ contains (exn_str boom) record = true
    /\ chain_prompts w'
       = (chain_prompts empty_world ++ [cypher_prompt "Where is order 7"])%list.
Proof.
  apply (capability_exception_fallback failing_chain OrderTracking
           "Where is order 7" boom empty_world
           (with_chain_prompt (cypher_prompt "Where is order 7") empty_world)).
  vm_compute. reflexivity.
Defined.

(** [generate_response("")] on an empty output. *)
Lemma generate_response_on_success_run :
  fst (generate_response stuck_entropy failing_chain polite_llm empty_agent
         plain_repr EmptyString empty_world)
  = Ok not_found_answer.
Proof.
  pose proof (generate_response_on_success stuck_entropy failing_chain
                polite_llm empty_agent plain_repr EmptyString empty_world
                _ _ eq_refl) as [H _].
  rewrite (H eq_refl). reflexivity.
Defined.

(** C1 fails for an absent ['output']: the pipeline call succeeds, the
    result has no such entry, and the answer is the generic error sentence,
    not the not-found sentence. *)
Lemma absent_output_is_generic_error :
  fst (chat_agent_invoke failing_chain polite_llm silent_agent
         [("input", "hi")] (session_of_draw stuck_entropy 0)
         (with_draw empty_world))
  = Ok [("input", "hi")]
  /\ dict_get [("input", "hi")] "output" = None
  /\ fst (generate_response stuck_entropy failing_chain polite_llm
            silent_agent plain_repr "hi" empty_world)
     = Ok generic_error_answer
  /\ generic_error_answer <> not_found_answer.
Proof.
  split; [reflexivity|]. split; [reflexivity|]. split; [reflexivity|].
  discriminate.
Qed.

(** The exception of the chain is printed by the capability. *)
Lemma exception_text_output_run :
  capability_func failing_chain CustomerInformation "Who is ACME" empty_world
  = (Ok (PStr (registered_fallback CustomerInformation)),
     wrote (exn_str boom ++ nl)
       (logged ("ERROR:root:Cypher error occurred: " ++ exn_str boom)
          (with_chain_prompt (cypher_prompt "Who is ACME") empty_world))).
Proof.
  apply (proj1 (exception_text_output stuck_entropy failing_chain polite_llm
                  verbatim_agent plain_repr)).
  vm_compute. reflexivity.
Defined.

(** C3 fails: in a console session where the graph service is down, the
    text of its exception is written to standard output, between the
    prompt and the answer. *)
Lemma exception_text_reaches_console :
  (forall (n : nat) (prompt : string), failing_chain n prompt = Raise boom)
  /\ stdout (snd (chat_loop stuck_entropy failing_chain polite_llm
                    verbatim_agent plain_repr
                    ["Where is order 7"; "exit"] empty_world))
     = ["Hello! I am your product chatbot. How can I assist you today?" ++ nl;
        "You: ";
        exn_str boom ++ nl;
        "<response>" ++ nl;
        "Chatbot: Unable to track the order at the moment. Please try again later or contact support." ++ nl;
        "You: ";
        "Chatbot: Goodbye!" ++ nl]
  /\ existsb (String.eqb (exn_str boom))
       (generic_error_answer :: not_found_answer
        :: map registered_fallback all_capabilities)
     = false.
Proof.
  split; [reflexivity|]. split; vm_compute; reflexivity.
Qed.

(** An exit word in mixed case ends the loop; the next line is not read. *)
Lemma chat_loop_exit_or_answer_run :
  chat_turns stuck_entropy failing_chain polite_llm verbatim_agent plain_repr
    ["eXiT"; "never read"] empty_world
  = (Ok tt, wrote ("Chatbot: Goodbye!" ++ nl) (wrote "You: " empty_world)).
Proof.
  apply (proj1 (chat_loop_exit_or_answer stuck_entropy failing_chain
                  polite_llm verbatim_agent plain_repr
                  "eXiT" ["never read"] empty_world)).
  vm_compute. reflexivity.
Defined.

(** A padded exit word is answered like any other line. *)
Lemma only_exact_exit_words_stop_run :
  in_list (lower " exit ") ["exit"; "quit"] = false
  /\ (exists (response : string) (w1 : world),
        generate_response stuck_entropy failing_chain polite_llm
          crashing_agent plain_repr " exit " (wrote "You: " empty_world)
        = (Ok response, w1)
        /\ chat_turns stuck_entropy failing_chain polite_llm crashing_agent
             plain_repr [" exit "; "quit"] empty_world
           = chat_turns stuck_entropy failing_chain polite_llm crashing_agent
               plain_repr ["quit"]
               (wrote (("Chatbot: " ++ response) ++ nl) w1)).
Proof.
  destruct (only_exact_exit_words_stop stuck_entropy failing_chain polite_llm
              crashing_agent plain_repr " exit " ["quit"] empty_world)
    as (H1 & H2 & _); [discriminate | discriminate |].
  split; [exact H1 | exact H2].
Defined.

(** With an entropy source that counts, two calls in a row differ. *)
Lemma successive_session_ids_run :
  exists (s1 s2 : string) (w1 w2 : world),
    get_session_id counting_entropy empty_world = (Ok s1, w1)
    /\ get_session_id counting_entropy w1 = (Ok s2, w2)
    /\ s1 <> s2.
Proof.
  destruct (successive_session_ids counting_entropy empty_world)
    as (s1 & s2 & w1 & w2 & H1 & H2 & H).
  exists s1, s2, w1, w2. split; [exact H1|]. split; [exact H2|].
  intros E. apply H in E. vm_compute in E. discriminate E.
Defined.

(** C7 fails when the entropy source repeats itself: the two calls return
    the same identifier; and two draws that differ only in an overwritten
    bit give the same identifier too. *)
Lemma repeated_draw_repeats_session_id :
  fst (get_session_id stuck_entropy empty_world)
  = Ok "00000000-0000-4000-8000-000000000000"
  /\ fst (get_session_id stuck_entropy
            (snd (get_session_id stuck_entropy empty_world)))
     = Ok "00000000-0000-4000-8000-000000000000"
  /\ variant_entropy 0 <> variant_entropy 1
  /\ fst (get_session_id variant_entropy empty_world)
     = fst (get_session_id variant_entropy
              (snd (get_session_id variant_entropy empty_world))).
Proof.
  split; [vm_compute; reflexivity|]. split; [vm_compute; reflexivity|].
  split; [discriminate | vm_compute; reflexivity].
Qed.

(** With an entropy source that counts, three turns get three identifiers. *)
Lemma session_per_turn_run :
  NoDup (map (session_of_draw counting_entropy) (seq 0 3)).
Proof.
  apply (proj2 (proj2 (session_per_turn counting_entropy failing_chain
                         polite_llm crashing_agent plain_repr))).
  intros i j Hi Hj E.
  assert (Ci : i = 0 \/ i = 1 \/ i = 2) by lia.
  assert (Cj : j = 0 \/ j = 1 \/ j = 2) by lia.
  destruct Ci as [->|[->| ->]]; destruct Cj as [->|[->| ->]];
    try reflexivity; vm_compute in E; discriminate E.
Defined.

(** C6 fails when the entropy source repeats itself: two turns of one run
    are bound to the same session identifier. *)
Lemma repeated_draw_reuses_session :
  sessions (snd (chat_loop stuck_entropy answering_chain polite_llm
                   verbatim_agent plain_repr
                   ["Where is order 7"; "And order 8"; "quit"] empty_world))
  = ["00000000-0000-4000-8000-000000000000";
     "00000000-0000-4000-8000-000000000000"].
Proof. vm_compute. reflexivity. Qed.

(** When the agent puts the month and year into the tool input, the Cypher
    prompt has them. *)
Lemma date_rule_is_in_agent_prompt_run :
  exists prompt : string,
    chain_prompts (snd (capability_func answering_chain OrderTracking
                          "Show me orders November 2026" empty_world))
    = (chain_prompts empty_world ++ [prompt])%list
    /\ contains "November 2026" prompt = true.
Proof.
  apply (proj2 (proj2 (date_rule_is_in_agent_prompt answering_chain 2026
                         "November"))).
  vm_compute. reflexivity.
Defined.

(** C8 fails when the agent forwards the user's words as they are: the one
    prompt the chain receives for "Show me orders this month" still says
    "this month" and contains no month name and no year. *)
Lemma this_month_is_not_substituted :
  chain_prompts (snd (generate_response stuck_entropy answering_chain
                        polite_llm verbatim_agent plain_repr
                        "Show me orders this month" empty_world))
  = [cypher_prompt "Show me orders this month"]
  /\ contains "this month" (cypher_prompt "Show me orders this month") = true
  /\ existsb (fun m => contains m (cypher_prompt "Show me orders this month"))
             month_names = false
  /\ existsb (fun y => contains y (cypher_prompt "Show me orders this month"))
             years = false.
Proof. repeat split; vm_compute; reflexivity. Qed.

End Runs.

(** * Further properties *)

(** ** The capability functions and the executor *)

Section MoreCapabilityFacts.

Variable os_urandom16 : nat -> N.
Variable graph_qa : nat -> string -> outcome dict.
Variable llm_reply : nat -> string -> outcome string.
Variable agent : nat -> history_handle -> string -> plan.
Variable repr_dict : dict -> string.

Local Abbreviation generate_response' :=
  (generate_response os_urandom16 graph_qa llm_reply agent repr_dict).
Local Abbreviation tools' := (tools graph_qa llm_reply).
Local Abbreviation agent_executor' := (agent_executor graph_qa llm_reply).







(** X4: the answer of [generate_response] is never the empty string. *)
Theorem answer_is_never_empty (user_input : string) (w : world) :
  exists answer : string,
    fst (generate_response' user_input w) = Ok answer
    /\ String.length answer <> 0.
Proof.
  rewrite generate_response_cases.
  destruct (chat_agent_invoke _ _ _ _ _ _) as [[response|e] w1].
  - destruct (dict_get response "output") as [output|].
    + destruct output as [|c output]; eexists; (split; [reflexivity|]);
        discriminate.
    + eexists. split; [reflexivity | discriminate].
  - eexists. split; [reflexivity | discriminate].
Qed.

End MoreCapabilityFacts.

(** ** Whole runs of the console loop *)

Lemma extends_refl {A : Type} (l : list A) : extends l l.
Proof. exists []. now rewrite app_nil_r. Qed.

Lemma extends_trans {A : Type} (l1 l2 l3 : list A) :
  extends l1 l2 -> extends l2 l3 -> extends l1 l3.
Proof.
  intros [m1 ->] [m2 ->]. exists (m1 ++ m2)%list. now rewrite app_assoc.
Qed.

Lemma extends_snoc {A : Type} (l : list A) (x : A) : extends l (l ++ [x]).
Proof. exists [x]. reflexivity. Qed.

Section RunFacts.

Variable os_urandom16 : nat -> N.
Variable graph_qa : nat -> string -> outcome dict.
Variable llm_reply : nat -> string -> outcome string.
Variable agent : nat -> history_handle -> string -> plan.
Variable repr_dict : dict -> string.

Local Abbreviation generate_response' :=
  (generate_response os_urandom16 graph_qa llm_reply agent repr_dict).
Local Abbreviation chat_turns' :=
  (chat_turns os_urandom16 graph_qa llm_reply agent repr_dict).
Local Abbreviation chat_loop' :=
  (chat_loop os_urandom16 graph_qa llm_reply agent repr_dict).
Local Abbreviation tools' := (tools graph_qa llm_reply).
Local Abbreviation agent_executor' := (agent_executor graph_qa llm_reply).

(** Standard output only grows. *)
Lemma tool_extends_stdout (t : tool) (text : string) (w : world) :
  In t tools' -> extends (stdout w) (stdout (snd (func t text w))).
Proof.
  assert (C : forall c, extends (stdout w)
                (stdout (snd (capability_func graph_qa c text w)))).
  { intros c. rewrite capability_is_forwarder.
    destruct (graph_qa (length (chain_prompts w)) (cypher_prompt text))
      as [result|e] eqn:E.
    - rewrite (forward_on_success _ _ _ _ _ E). apply extends_refl.
    - rewrite (forward_on_exception _ _ _ _ _ E). apply extends_snoc. }
  intros H. unfold tools in H. simpl in H.
  destruct H as [<-|[<-|[<-|[<-|[<-|[<-|[<-|[]]]]]]]]; cbn [func].
  - apply (C ProductInformation).
  - apply (C OrderTracking).
  - apply (C SupplierInformation).
  - apply (C WarehouseInventory).
  - apply (C PurchaseOrderInformation).
  - apply (C CustomerInformation).
  - apply extends_refl.
Qed.

Lemma agent_executor_extends_stdout (p : plan) (w : world) :
  extends (stdout w) (stdout (snd (agent_executor' p w))).
Proof.
  revert w. induction p as [[result|e]|requested tool_input next IH];
    intros w; try apply extends_refl.
  cbn [agent_executor].
  destruct (find_tool requested tools') as [t|] eqn:F; [|apply IH].
  unfold bind.
  pose proof (tool_extends_stdout t tool_input w (find_tool_In _ _ _ F)) as Ht.
  destruct (func t tool_input w) as [[observation|e] w1]; simpl in Ht.
  - eapply extends_trans; [exact Ht | apply IH].
  - exact Ht.
Qed.

Lemma generate_response_extends_stdout (user_input : string) (w : world) :
  extends (stdout w) (stdout (snd (generate_response' user_input w))).
Proof.
  rewrite generate_response_cases.
  unfold chat_agent_invoke, bind, subscript.
  change (dict_get [("input", user_input)] "input") with (Some user_input).
  unfold ret.
  match goal with
  | |- context [agent_executor' ?p ?w0] =>
      pose proof (agent_executor_extends_stdout p w0) as H;
      destruct (agent_executor' p w0) as [[response|e] w1]
  end; simpl in H.
  - destruct (dict_get response "output"); simpl;
      eapply extends_trans; try exact H; apply extends_snoc.
  - exact H.
Qed.

Lemma chat_turns_outcome (lines : list string) (w : world) :
  fst (chat_turns' lines w)
  = (if existsb is_exit_line lines then Ok tt else Raise EOFError)
  /\ exists middle : list string,
       stdout (snd (chat_turns' lines w))
       = (stdout w ++ middle
          ++ [if existsb is_exit_line lines then goodbye else you_prompt])%list.
Proof.
  revert w. induction lines as [|line rest IH]; intros w.
  - split; [reflexivity|]. exists []. reflexivity.
  - rewrite chat_turns_cons. cbn [existsb]. unfold is_exit_line at 1 3.
    destruct (in_list (lower line) ["exit"; "quit"]).
    + split; [reflexivity|]. exists [you_prompt]. simpl.
      now rewrite <- app_assoc.
    + cbn [orb].
      destruct (generate_response_returns os_urandom16 graph_qa llm_reply
                  agent repr_dict line (wrote "You: " w))
        as (response & w1 & Hg).
      pose proof (generate_response_extends_stdout line (wrote "You: " w))
        as [more Hm].
      rewrite Hg in Hm |- *. simpl in Hm.
      destruct (IH (wrote (("Chatbot: " ++ response) ++ nl) w1))
        as [Hf [middle Hs]].
      split; [exact Hf|].
      set (line_out := ("Chatbot: " ++ response) ++ nl) in *.
      exists (you_prompt :: more ++ line_out :: middle)%list.
      rewrite Hs. cbn [stdout wrote]. rewrite Hm. unfold you_prompt.
      repeat rewrite <- app_assoc. cbn [app].
      repeat rewrite <- app_assoc. reflexivity.
Qed.

(** X5: a run of the loop ends normally exactly when some line is an exit
    line; otherwise, when standard input is used up, [input] raises
    [EOFError] and nothing catches it.  Either way the greeting is written
    first; the last thing written is the goodbye in the first case and an
    unanswered prompt in the second. *)
Theorem chat_loop_outcome (lines : list string) (w : world) :
  fst (chat_loop' lines w)
  = (if existsb is_exit_line lines then Ok tt else Raise EOFError)
  /\ exists middle : list string,
       stdout (snd (chat_loop' lines w))
       = (stdout w ++ greeting :: middle
          ++ [if existsb is_exit_line lines then goodbye else you_prompt])%list.
Proof.
  unfold chat_loop, bind, print, write.
  destruct (chat_turns_outcome lines
              (wrote ("Hello! I am your product chatbot. How can I assist you today?" ++ nl) w))
    as [Hf [middle Hs]].
  split; [exact Hf|]. exists middle. rewrite Hs. cbn [stdout wrote].
  now rewrite <- app_assoc.
Qed.

Lemma chat_turns_stop (before after : list string) (line : string)
    (w : world) :
  is_exit_line line = true ->
  chat_turns' (before ++ line :: after) w = chat_turns' (before ++ [line]) w.
Proof.
  intros H. revert w. induction before as [|l before IH]; intros w.
  - cbn [app]. rewrite !chat_turns_cons. unfold is_exit_line in H.
    rewrite H. reflexivity.
  - cbn [app]. rewrite !chat_turns_cons.
    destruct (in_list (lower l) ["exit"; "quit"]); [reflexivity|].
    destruct (generate_response' l (wrote "You: " w)) as [[r|e] w1];
      [apply IH | reflexivity].
Qed.

(** X6: whatever follows an exit line on standard input has no effect: the
    run is the run on the input cut after that line. *)
Theorem lines_after_exit_are_unread
    (before after : list string) (line : string) (w : world) :
  is_exit_line line = true ->
  chat_loop' (before ++ line :: after) w = chat_loop' (before ++ [line]) w.
Proof.
  intros H. unfold chat_loop, bind, print, write.
  apply chat_turns_stop, H.
Qed.

End RunFacts.

(** ** The error log on healthy runs *)

Section HealthyRuns.

Variable os_urandom16 : nat -> N.
Variable graph_qa : nat -> string -> outcome dict.
Variable llm_reply : nat -> string -> outcome string.
Variable agent : nat -> history_handle -> string -> plan.
Variable repr_dict : dict -> string.

Hypothesis chain_answers :
  forall (n : nat) (prompt : string), exists result, graph_qa n prompt = Ok result.
Hypothesis llm_answers :
  forall (n : nat) (text : string), exists content, llm_reply n text = Ok content.
Hypothesis agent_answers :
  forall (n : nat) (h : history_handle) (user_input : string),
    answers (agent n h user_input).

Local Abbreviation generate_response' :=
  (generate_response os_urandom16 graph_qa llm_reply agent repr_dict).
Local Abbreviation chat_turns' :=
  (chat_turns os_urandom16 graph_qa llm_reply agent repr_dict).
Local Abbreviation chat_loop' :=
  (chat_loop os_urandom16 graph_qa llm_reply agent repr_dict).
Local Abbreviation tools' := (tools graph_qa llm_reply).
Local Abbreviation agent_executor' := (agent_executor graph_qa llm_reply).

Lemma healthy_tool (t : tool) (text : string) (w : world) :
  In t tools' ->
  exists (v : pyval) (w1 : world),
    func t text w = (Ok v, w1) /\ errlog w1 = errlog w.
Proof.
  assert (C : forall c, exists v w1,
                capability_func graph_qa c text w = (Ok v, w1)
                /\ errlog w1 = errlog w).
  { intros c. rewrite capability_is_forwarder.
    destruct (chain_answers (length (chain_prompts w)) (cypher_prompt text))
      as [result E].
    rewrite (forward_on_success _ _ _ _ _ E).
    eexists. eexists. split; reflexivity. }
  intros H. unfold tools in H. simpl in H.
  destruct H as [<-|[<-|[<-|[<-|[<-|[<-|[<-|[]]]]]]]]; cbn [func].
  - apply (C ProductInformation).
  - apply (C OrderTracking).
  - apply (C SupplierInformation).
  - apply (C WarehouseInventory).
  - apply (C PurchaseOrderInformation).
  - apply (C CustomerInformation).
  - unfold llm_invoke.
    destruct (llm_answers (length (llm_inputs w)) text) as [content ->].
    eexists. eexists. split; reflexivity.
Qed.

Lemma healthy_executor (p : plan) (w : world) :
  answers p ->
  exists (result : dict) (w1 : world),
    agent_executor' p w = (Ok result, w1)
    /\ errlog w1 = errlog w
    /\ dict_get result "output" <> None.
Proof.
  revert w. induction p as [[result|e]|requested tool_input next IH];
    intros w H; cbn [answers] in H.
  - exists result, w. repeat split. exact H.
  - destruct H.
  - cbn [agent_executor].
    destruct (find_tool requested tools') as [t|] eqn:F; [|apply IH, H].
    destruct (healthy_tool t tool_input w (find_tool_In _ _ _ F))
      as (v & w1 & Hv & Hlog).
    unfold bind. rewrite Hv.
    destruct (IH v w1 (H v)) as (result & w2 & Hr & Hlog2 & Hout).
    exists result, w2. split; [exact Hr|]. split; [congruence | exact Hout].
Qed.

Lemma healthy_response (user_input : string) (w : world) :
  errlog (snd (generate_response' user_input w)) = errlog w.
Proof.
  rewrite generate_response_cases.
  unfold chat_agent_invoke, bind, subscript.
  change (dict_get [("input", user_input)] "input") with (Some user_input).
  unfold ret.
  match goal with
  | |- context [agent_executor' ?p ?w0] =>
      destruct (healthy_executor p w0 (agent_answers _ _ _))
        as (result & w1 & -> & Hlog & Hout)
  end.
  destruct (dict_get result "output"); [|now elim Hout].
  simpl. exact Hlog.
Qed.

Lemma healthy_turns (lines : list string) (w : world) :
  errlog (snd (chat_turns' lines w)) = errlog w.
Proof.
  revert w. induction lines as [|line rest IH]; intros w; [reflexivity|].
  rewrite chat_turns_cons.
  destruct (in_list (lower line) ["exit"; "quit"]); [reflexivity|].
  pose proof (healthy_response line (wrote "You: " w)) as H.
  destruct (generate_response' line (wrote "You: " w)) as [[r|e] w1];
    simpl in H; [rewrite IH|]; exact H.
Qed.

(** X7: nothing is logged without a failure: when the chain and the model
    answer every call and every run of the agent finishes with a result
    that has an ['output'], a whole run of the loop leaves the error log as
    it was. *)
Theorem no_failure_no_log (lines : list string) (w : world) :
  errlog (snd (chat_loop' lines w)) = errlog w.
Proof.
  unfold chat_loop, bind, print, write. rewrite healthy_turns. reflexivity.
Qed.

End HealthyRuns.

(** ** The Cypher prompt *)

Lemma append_inv_head (p a b : string) : p ++ a = p ++ b -> a = b.
Proof.
  induction p as [|c p IH]; simpl; intros H; [exact H|].
  injection H as H. exact (IH H).
Qed.

Lemma length_append (a b : string) :
  String.length (a ++ b) = String.length a + String.length b.
Proof. induction a as [|c a IH]; simpl; [reflexivity | now rewrite IH]. Qed.

Lemma append_inv_tail (a b t : string) : a ++ t = b ++ t -> a = b.
Proof.
  revert b. induction a as [|c a IH]; intros [|d b] H.
  - reflexivity.
  - apply (f_equal String.length) in H. simpl in H.
    rewrite length_append in H. lia.
  - apply (f_equal String.length) in H. simpl in H.
    rewrite length_append in H. lia.
  - simpl in H. injection H as -> H. now rewrite (IH b H).
Qed.

(** X8: the query-generation template is well formed for every question:
    rendering never fails, also when the question itself contains braces;
    the question stands, as it is, after "Question: " at the end of the
    prompt; and two different questions give two different prompts. *)
Theorem cypher_prompt_is_faithful :
  (forall question : string,
      format CYPHER_GENERATION_TEMPLATE [("question", question)]
      = Ok (cypher_prompt question))
  /\ (exists before : string, forall question : string,
        cypher_prompt question
        = before ++ "Question: " ++ question ++ nl ++ nl)
  /\ (forall q1 q2 : string, cypher_prompt q1 = cypher_prompt q2 -> q1 = q2)
  /\ contains ("INCLUDES_PRODUCT{ OrderQty, ShippedQty, BOQty}")
              cypher_prompt_before = true.
Proof.
  split; [exact render_cypher_prompt|]. split; [|split].
  - exists (substring 0 (String.length cypher_prompt_before - 10)
                      cypher_prompt_before).
    intros question. vm_compute. reflexivity.
  - unfold cypher_prompt. intros q1 q2 H.
    apply append_inv_head in H. exact (append_inv_tail _ _ _ H).
  - vm_compute. reflexivity.
Qed.

(** ** The shape of a session identifier *)

Module UuidShape.
Import Uuid.
Open Scope N_scope.

Lemma hex_digit_is_hex (d : N) : is_hex (hex_digit d) = true.
Proof.
  unfold hex_digit.
  repeat match goal with
         | |- context [match ?x with _ => _ end] => destruct x
         end; reflexivity.
Qed.

Lemma hex_fixed_is_hex (width : nat) (n : N) :
  Forall (fun c => is_hex c = true) (hex_fixed width n).
Proof.
  revert n. induction width as [|k IH]; intros n; cbn [hex_fixed].
  - constructor.
  - apply Forall_app. split; [apply IH|].
    constructor; [apply hex_digit_is_hex | constructor].
Qed.

(** The digit at a place is the nibble of that weight. *)
Lemma nth_hex_fixed (width : nat) (n : N) (i : nat) :
  (i < width)%nat ->
  nth_error (hex_fixed width n) i
  = Some (hex_digit ((n / 16 ^ N.of_nat (width - 1 - i)) mod 16)).
Proof.
  revert n i. induction width as [|k IH]; intros n i H; [lia|].
  cbn [hex_fixed].
  destruct (Nat.eq_dec i k) as [->|Hne].
  - rewrite nth_error_app2 by (rewrite UuidFacts.hex_fixed_length; lia).
    rewrite UuidFacts.hex_fixed_length.
    replace (k - k)%nat with 0%nat by lia.
    replace (S k - 1 - k)%nat with 0%nat by lia.
    cbn [nth_error]. now rewrite N.pow_0_r, N.div_1_r.
  - rewrite nth_error_app1 by (rewrite UuidFacts.hex_fixed_length; lia).
    rewrite IH by lia.
    replace (S k - 1 - i)%nat with (S (k - 1 - i)) by lia.
    rewrite Nat2N.inj_succ, N.pow_succ_r', N.Div0.div_div. reflexivity.
Qed.

Lemma nibble_bit (x n j : N) :
  N.testbit ((x / 2 ^ n) mod 2 ^ 4) j
  = if j <? 4 then N.testbit x (j + n) else false.
Proof.
  destruct (N.ltb_spec j 4) as [L|G].
  - rewrite N.mod_pow2_bits_low by exact L. apply N.div_pow2_bits.
  - apply N.mod_pow2_bits_high, G.
Qed.

Lemma uuid4_int_bit (r j : N) :
  N.testbit (uuid4_int r) j
  = N.testbit (r mod 2 ^ 128) j
    && negb (N.testbit (N.lor variant_mask version_mask) j)
    || N.testbit (N.lor variant_bits version_bits) j.
Proof.
  rewrite UuidFacts.uuid4_int_split. unfold random_bits.
  now rewrite N.lor_spec, N.ldiff_spec.
Qed.

(** The version nibble is 4. *)
Lemma version_nibble (r : N) : (uuid4_int r / 16 ^ 19) mod 16 = 4.
Proof.
  change (16 ^ 19) with (2 ^ 76). change 16 with (2 ^ 4).
  apply N.bits_inj. intros j. rewrite nibble_bit.
  destruct (N.ltb_spec j 4) as [L|G].
  - assert (C : j = 0 \/ j = 1 \/ j = 2 \/ j = 3) by lia.
    destruct C as [->|[->|[->| ->]]]; rewrite uuid4_int_bit;
      match goal with
      | |- context [N.testbit (r mod 2 ^ 128) ?k] =>
          destruct (N.testbit (r mod 2 ^ 128) k)
      end; reflexivity.
  - symmetry. apply (UuidFacts.high_bits_small 4 3); [reflexivity | lia].
Qed.

(** The variant nibble is 8, 9, 10 or 11. *)
Lemma variant_nibble (r : N) :
  let d := (uuid4_int r / 16 ^ 15) mod 16 in
  d = 8 \/ d = 9 \/ d = 10 \/ d = 11.
Proof.
  intros d.
  assert (B3 : N.testbit d 3 = true).
  { unfold d. change (16 ^ 15) with (2 ^ 60). change 16 with (2 ^ 4).
    rewrite nibble_bit, uuid4_int_bit. cbn [N.ltb N.compare Pos.compare
      Pos.compare_cont].
    destruct (N.testbit (r mod 2 ^ 128) (3 + 60)); reflexivity. }
  assert (B2 : N.testbit d 2 = false).
  { unfold d. change (16 ^ 15) with (2 ^ 60). change 16 with (2 ^ 4).
    rewrite nibble_bit, uuid4_int_bit.
    destruct (N.testbit (r mod 2 ^ 128) (2 + 60)); reflexivity. }
  assert (L : d < 16) by (apply N.mod_lt; discriminate).
  assert (C : d = 0 \/ d = 1 \/ d = 2 \/ d = 3 \/ d = 4 \/ d = 5 \/ d = 6
              \/ d = 7 \/ d = 8 \/ d = 9 \/ d = 10 \/ d = 11 \/ d = 12
              \/ d = 13 \/ d = 14 \/ d = 15) by lia.
  clearbody d.
  repeat (destruct C as [->|C]; [first [discriminate B3 | discriminate B2 | tauto]|]).
  subst d. discriminate B2.
Qed.

Close Scope N_scope.

(** The printed form of 32 digits. *)
Lemma grouped_shape (hex : list ascii) :
  length hex = 32 ->
  Forall (fun c => is_hex c = true) hex ->
  let s := string_of_list_ascii
             (firstn 8 hex ++ dash :: firstn 4 (skipn 8 hex) ++ dash ::
              firstn 4 (skipn 12 hex) ++ dash :: firstn 4 (skipn 16 hex) ++
              dash :: skipn 20 hex)%list in
  String.length s = 36
  /\ (forall i, In i dash_places -> String.get i s = Some dash)
  /\ String.get 14 s = nth_error hex 12
  /\ String.get 19 s = nth_error hex 16
  /\ (forall i, i < 36 -> ~ In i dash_places ->
        exists c, String.get i s = Some c /\ is_hex c = true).
Proof.
  intros H F.
  do 32 (destruct hex as [|? hex]; [discriminate H|]).
  destruct hex; [|discriminate H]. clear H.
  repeat match goal with
         | H : Forall _ (_ :: _) |- _ =>
             apply Forall_cons_iff in H; destruct H as [? H]
         end.
  cbv zeta. cbn [firstn skipn app string_of_list_ascii].
  split; [reflexivity|]. split.
  { intros i Hi. unfold dash_places in Hi. cbn [In] in Hi.
    destruct Hi as [<-|[<-|[<-|[<-|[]]]]]; reflexivity. }
  split; [reflexivity|]. split; [reflexivity|].
  intros i Hi Hd. unfold dash_places in Hd. cbn [In] in Hd.
  do 36 (destruct i as [|i];
         [first [ exfalso; apply Hd; tauto
                | eexists; split; [reflexivity | assumption] ] |]).
  lia.
Qed.

Section Shape.

Variable os_urandom16 : nat -> N.

(** X9: every session identifier is a well-formed version-4 UUID in
    canonical text form: 36 characters, a dash at places 8, 13, 18 and 23,
    the digit 4 at place 14, one of 8, 9, a, b at place 19, and a
    lower-case hexadecimal digit everywhere else. *)
Theorem session_id_shape (w : world) :
  exists (s : string) (w1 : world),
    get_session_id os_urandom16 w = (Ok s, w1)
    /\ String.length s = 36
    /\ (forall i, In i dash_places -> String.get i s = Some "-"%char)
    /\ String.get 14 s = Some "4"%char
    /\ (exists c, String.get 19 s = Some c
                  /\ In c ["8"; "9"; "a"; "b"]%char)
    /\ (forall i, i < 36 -> ~ In i dash_places ->
          exists c, String.get i s = Some c /\ is_hex c = true).
Proof.
  exists (session_of_draw os_urandom16 (entropy_used w)), (with_draw w).
  split; [reflexivity|].
  unfold session_of_draw, uuid4_str, uuid_str.
  set (x := uuid4_int (os_urandom16 (entropy_used w))).
  destruct (grouped_shape (hex_fixed 32 x) (UuidFacts.hex_fixed_length 32 x)
              (hex_fixed_is_hex 32 x)) as (L & D & V & R & H).
  cbv zeta. split; [exact L|]. split; [exact D|]. split; [|split; [|exact H]].
  - rewrite V, nth_hex_fixed by lia. subst x.
    change (N.of_nat (32 - 1 - 12)) with 19%N.
    now rewrite version_nibble.
  - rewrite R, nth_hex_fixed by lia. subst x.
    change (N.of_nat (32 - 1 - 16)) with 15%N.
    eexists. split; [reflexivity|].
    destruct (variant_nibble (os_urandom16 (entropy_used w)))
      as [E|[E|[E|E]]]; rewrite E; cbn; tauto.
Qed.

End Shape.

End UuidShape.

(** ** Rendering the agent prompt *)

Lemma format_from_plain_char (env : dict) (c : ascii) (rest : string) :
  is_brace c = false ->
  format_from env None (String c rest)
  = outcome_map (String c) (format_from env None rest).
Proof.
  intros H.
  destruct c as [[] [] [] [] [] [] [] []];
    first [discriminate H | reflexivity].
Qed.

Lemma format_from_open (env : dict) (c : ascii) (rest : string) :
  is_brace c = false ->
  format_from env None (String "{" (String c rest))
  = format_from env (Some EmptyString) (String c rest).
Proof.
  intros H.
  destruct c as [[] [] [] [] [] [] [] []];
    first [discriminate H | reflexivity].
Qed.

Lemma format_from_name_char (env : dict) (acc : string) (c : ascii)
    (rest : string) :
  is_brace c = false ->
  format_from env (Some acc) (String c rest)
  = format_from env (Some (acc ++ String c EmptyString)) rest.
Proof.
  intros H.
  destruct c as [[] [] [] [] [] [] [] []];
    first [discriminate H | reflexivity].
Qed.

(** Plain text is copied. *)
Lemma format_from_plain (env : dict) (s t : string) :
  brace_free s = true ->
  format_from env None (s ++ t)
  = outcome_map (append s) (format_from env None t).
Proof.
  induction s as [|c s IH]; intros H.
  - simpl. destruct (format_from env None t); reflexivity.
  - cbn [brace_free] in H. apply andb_true_iff in H as [Hc Hs].
    apply negb_true_iff in Hc.
    cbn [append]. rewrite format_from_plain_char, IH by assumption.
    destruct (format_from env None t); reflexivity.
Qed.

Lemma format_from_name (env : dict) (acc name t : string) :
  brace_free name = true ->
  format_from env (Some acc) (name ++ String "}" t)
  = match dict_get env (acc ++ name) with
    | Some v => outcome_map (append v) (format_from env None t)
    | None => Raise (KeyError (acc ++ name))
    end.
Proof.
  revert acc. induction name as [|c name IH]; intros acc H.
  - rewrite append_empty_r. cbn [append format_from].
    destruct (dict_get env acc); [|reflexivity].
    destruct (format_from env None t); reflexivity.
  - cbn [brace_free] in H. apply andb_true_iff in H as [Hc Hn].
    apply negb_true_iff in Hc. cbn [append].
    rewrite format_from_name_char, IH by assumption.
    now rewrite append_assoc.
Qed.

(** A field is replaced by its value, which is not read again. *)
Lemma format_from_field (env : dict) (c : ascii) (name t v : string) :
  brace_free (String c name) = true ->
  dict_get env (String c name) = Some v ->
  format_from env None (String "{" (String c name ++ String "}" t))
  = outcome_map (append v) (format_from env None t).
Proof.
  intros H D. pose proof H as H'. cbn [brace_free] in H'.
  apply andb_true_iff in H' as [Hc _]. apply negb_true_iff in Hc.
  cbn [append]. rewrite format_from_open by exact Hc.
  change (String c (name ++ String "}" t))
    with (String c name ++ String "}" t).
  rewrite format_from_name by exact H. cbn [append]. now rewrite D.
Qed.

Lemma decimal_brace_free (d : Decimal.uint) :
  brace_free (NilEmpty.string_of_uint d) = true.
Proof. induction d; simpl; assumption || reflexivity. Qed.

Lemma str_of_N_brace_free (n : N) : brace_free (str_of_N n) = true.
Proof.
  unfold str_of_N, NilZero.string_of_uint.
  destruct (N.to_uint n); try apply decimal_brace_free; reflexivity.
Qed.

Lemma format_plain_ok (env : dict) (s t r : string) :
  brace_free s = true ->
  format_from env None t = Ok r ->
  format_from env None (s ++ t) = Ok (s ++ r).
Proof. intros H E. now rewrite format_from_plain, E. Qed.

Lemma format_plain_end (env : dict) (s : string) :
  brace_free s = true -> format_from env None s = Ok s.
Proof.
  intros H. rewrite <- (append_empty_r s) at 1.
  rewrite format_from_plain by exact H. simpl. now rewrite append_empty_r.
Qed.

Lemma format_field_ok (env : dict) (c : ascii) (name t v r : string) :
  brace_free (String c name) = true ->
  dict_get env (String c name) = Some v ->
  format_from env None t = Ok r ->
  format_from env None (String "{" (String c name ++ String "}" t))
  = Ok (v ++ r).
Proof. intros H D E. now rewrite format_from_field with (v := v), E. Qed.

(** The text of the tail after the f-string is evaluated: the plain pieces,
    the two date values, and the five fields left for the agent. *)
Lemma agent_tail_text (month year : string) :
  literal_text [("current_month_name", month); ("current_year", year)]
               agent_prompt_tail
  = agent_piece 0 ++ year ++ agent_piece 1 ++ "{tools}" ++ agent_piece 2
    ++ "{tool_names}" ++ agent_piece 3 ++ month ++ agent_piece 4
    ++ "{chat_history}" ++ agent_piece 5 ++ "{input}" ++ agent_piece 6
    ++ "{agent_scratchpad}" ++ agent_piece 7.
Proof. vm_compute. reflexivity. Qed.

Section AgentPromptFacts.

Variable current_year : N.
Variable current_month_name : string.

(** X10: for every year and every month name without braces, the agent
    prompt is a well-formed template in exactly the five variables the
    agent fills in (tools, tool_names, chat_history, input,
    agent_scratchpad): rendering never fails, each value is inserted as it
    is (braces in it are not read as fields), the user's input after
    "New input: ", and the month name and the year stand at their places. *)
Theorem agent_prompt_is_well_formed :
  brace_free current_month_name = true ->
  exists text : string,
    agent_prompt current_year current_month_name = Ok text
    /\ (forall tools_text tool_names chat_history user_input
               agent_scratchpad : string,
          format text (agent_variables tools_text tool_names chat_history
                                       user_input agent_scratchpad)
          = Ok (agent_prompt_head ++ current_month_name ++ " "
                ++ str_of_N current_year ++ agent_piece 0
                ++ str_of_N current_year ++ agent_piece 1
                ++ tools_text ++ agent_piece 2
                ++ tool_names ++ agent_piece 3
                ++ current_month_name ++ agent_piece 4
                ++ chat_history ++ agent_piece 5
                ++ user_input ++ agent_piece 6
                ++ agent_scratchpad ++ agent_piece 7))
    /\ forallb brace_free (agent_prompt_head :: agent_tail_pieces) = true
    /\ agent_piece 5 = nl ++ nl ++ "New input: "
    /\ agent_piece 6 = nl
    /\ agent_piece 7 = nl.
Proof.
  intros Hm. eexists. split; [apply agent_prompt_renders|].
  split; [|repeat split; vm_compute; reflexivity].
  intros tools_text tool_names chat_history user_input agent_scratchpad.
  unfold format. rewrite agent_tail_text.
  pose proof (str_of_N_brace_free current_year) as Hy.
  set (env := agent_variables _ _ _ _ _).
  apply (format_plain_ok env agent_prompt_head); [vm_compute; reflexivity|].
  apply (format_plain_ok env current_month_name); [exact Hm|].
  apply (format_plain_ok env " "); [reflexivity|].
  apply (format_plain_ok env (str_of_N current_year)); [exact Hy|].
  apply (format_plain_ok env (agent_piece 0)); [vm_compute; reflexivity|].
  apply (format_plain_ok env (str_of_N current_year)); [exact Hy|].
  apply (format_plain_ok env (agent_piece 1)); [vm_compute; reflexivity|].
  apply (format_field_ok env "t" "ools"); [reflexivity | reflexivity |].
  apply (format_plain_ok env (agent_piece 2)); [vm_compute; reflexivity|].
  apply (format_field_ok env "t" "ool_names"); [reflexivity | reflexivity |].
  apply (format_plain_ok env (agent_piece 3)); [vm_compute; reflexivity|].
  apply (format_plain_ok env current_month_name); [exact Hm|].
  apply (format_plain_ok env (agent_piece 4)); [vm_compute; reflexivity|].
  apply (format_field_ok env "c" "hat_history"); [reflexivity | reflexivity |].
  apply (format_plain_ok env (agent_piece 5)); [vm_compute; reflexivity|].
  apply (format_field_ok env "i" "nput"); [reflexivity | reflexivity |].
  apply (format_plain_ok env (agent_piece 6)); [vm_compute; reflexivity|].
  apply (format_field_ok env "a" "gent_scratchpad");
    [reflexivity | reflexivity |].
  apply format_plain_end. vm_compute. reflexivity.
Qed.

End AgentPromptFacts.

(** ** The inputs that end the loop *)





(** ** Further worked runs *)

Module MoreRuns.
Import Scenario MoreScenario.




(** What follows QUIT is not read. *)
Lemma lines_after_exit_are_unread_run :
  chat_loop stuck_entropy answering_chain polite_llm verbatim_agent plain_repr
    (["Where is order 7"] ++ "QUIT" :: ["And order 8"; "exit"]) empty_world
  = chat_loop stuck_entropy answering_chain polite_llm verbatim_agent
      plain_repr (["Where is order 7"] ++ ["QUIT"]) empty_world.
Proof.
  apply (lines_after_exit_are_unread stuck_entropy answering_chain polite_llm
           verbatim_agent plain_repr ["Where is order 7"]
           ["And order 8"; "exit"] "QUIT" empty_world).
  reflexivity.
Defined.

(** A healthy session leaves the log empty. *)
Lemma no_failure_no_log_run :
  errlog (snd (chat_loop counting_entropy answering_chain polite_llm
                 verbatim_agent plain_repr
                 ["Where is order 7"; "And order 8"; "quit"] empty_world))
  = errlog empty_world.
Proof.
  apply (no_failure_no_log counting_entropy answering_chain polite_llm
           verbatim_agent plain_repr).
  - intros n prompt. eexists. reflexivity.
  - intros n text. eexists. reflexivity.
  - intros n h user_input observation. discriminate.
Defined.

(** The agent prompt of November 2026, rendered for an input with braces. *)
Lemma agent_prompt_is_well_formed_run :
  exists text rendered : string,
    agent_prompt 2026 "November" = Ok text
    /\ format text (agent_variables "Order Tracking: ..." "Order Tracking"
                                    "[]" "orders with {status}" EmptyString)
       = Ok rendered
    /\ contains ("New input: orders with {status}" ++ nl) rendered = true.
Proof.
  destruct (agent_prompt_is_well_formed 2026 "November" eq_refl)
    as (text & Ht & Hf & _).
  exists text. eexists. split; [exact Ht|]. split; [apply Hf|].
  vm_compute. reflexivity.
Defined.

End MoreRuns.
